(** * resume_generator.py: a shallow embedding of the resume generator

    The program reads a YAML document, resolves a configuration, and turns the
    document into a sequence of layout blocks ("flowables") that the external
    layout library renders.  The embedding follows [src/resume_generator.py]
    definition by definition:

    - Python [str] values are sequences of Unicode code points;
    - the result of [yaml.safe_load] is a tree of type [yaml];
    - [self.story] and the standard output are the mutable state of a small
      state-and-exception monad [M];
    - every method of [ResumeGenerator] is a definition of the same name;
    - what a process finds around it (its arguments, the files, the hash
      seed that orders its sets, the render delegate) is a [World].

    Python's dynamic errors ([TypeError], [AttributeError], ...) are kept: a
    method applied to an ill-shaped document raises in the model where it
    raises in the program, and so does the [Paragraph] constructor of the
    layout library, which parses its text when it is called. *)

From Stdlib Require Import String Ascii.
From Stdlib Require Import ZArith NArith List Bool Lia Permutation.
From Stdlib Require Import PrimFloat SpecFloat FloatOps DecimalString.
Import ListNotations.

Set Implicit Arguments.
Set Warnings "-register-all,-inexact-float".
Local Open Scope Z_scope.

(* ===================================================================== *)
(** ** Python strings *)
(* ===================================================================== *)

(** A Python [str] is a sequence of code points. *)
Definition str : Type := list N.

(** ASCII literals of the source, as code points. *)
Definition u (s : String.string) : str :=
  map N_of_ascii (String.list_ascii_of_string s).
Arguments u s%_string.

(** U+2022, the bullet used as separator and as list marker. *)
Definition bullet : N := 8226%N.
(** U+2713, the check mark of the final message. *)
Definition check_mark : N := 10003%N.

Fixpoint str_eqb (a b : str) : bool :=
  match a, b with
  | [], [] => true
  | x :: a', y :: b' => N.eqb x y && str_eqb a' b'
  | _, _ => false
  end.

Fixpoint starts_with (p s : str) : bool :=
  match p, s with
  | [], _ => true
  | x :: p', y :: s' => N.eqb x y && starts_with p' s'
  | _ :: _, [] => false
  end.

(** [needle in hay] for two strings. *)
Fixpoint str_contains (needle hay : str) : bool :=
  starts_with needle hay ||
  match hay with
  | [] => false
  | _ :: hay' => str_contains needle hay'
  end.

(** [sep.join(parts)] once every part is known to be a string. *)
Fixpoint join (sep : str) (parts : list str) : str :=
  match parts with
  | [] => []
  | [p] => p
  | p :: rest => p ++ sep ++ join sep rest
  end.

(** The code points [str.strip()] removes (Python's [str.isspace]). *)
Definition is_space (c : N) : bool :=
  ((9 <=? c) && (c <=? 13) || (28 <=? c) && (c <=? 32)
   || (c =? 133) || (c =? 160) || (c =? 5760)
   || (8192 <=? c) && (c <=? 8202)
   || (c =? 8232) || (c =? 8233) || (c =? 8239) || (c =? 8287)
   || (c =? 12288))%N.

Fixpoint lstrip (s : str) : str :=
  match s with
  | c :: s' => if is_space c then lstrip s' else s
  | [] => []
  end.

(** [s.strip()] *)
Definition strip (s : str) : str := rev (lstrip (rev (lstrip s))).

(** [s.replace(old, new)] for one-character [old] and [new]. *)
Definition replace (old new : N) (s : str) : str :=
  map (fun c => if N.eqb c old then new else c) s.

(** [str(n)] for an [int]. *)
Definition str_of_Z (z : Z) : str := u (NilZero.string_of_int (Z.to_int z)).

(** ["%0<w>d"] for a non-negative number. *)
Definition zero_pad (w : nat) (z : Z) : str :=
  let digits := str_of_Z z in
  repeat 48%N (w - length digits) ++ digits.

(** The lower-case form of an ASCII code point; other code points are kept. *)
Definition ascii_lower (c : N) : N :=
  if ((65 <=? c) && (c <=? 90))%N then (c + 32)%N else c.

Definition is_ascii (c : N) : Prop := (c < 128)%N.

(* ===================================================================== *)
(** ** Documents: what [yaml.safe_load] returns *)
(* ===================================================================== *)

(** Scalars, sequences, mappings and sets.  A mapping keeps its entries in
    document order, as a Python [dict] does (its keys are distinct: of a key
    written twice the loader keeps one entry).  A [!!set] node is loaded as a
    Python [set]: in a loaded document [YSet elements] lists the elements in
    the order in which the set object is iterated, an order that is fixed
    when the set is built and that depends on the hash seed of the process
    (see [open_and_load]).  ([!!binary], [!!omap], [!!pairs] and timestamps
    with a time of day are not modelled.) *)
Inductive yaml : Type :=
| YNull
| YBool (b : bool)
| YInt (z : Z)
| YFloat (f : float)
| YStr (s : str)
| YDate (year month day : Z)
| YList (items : list yaml)
| YDict (entries : list (yaml * yaml))
| YSet (elements : list yaml).

Definition dict : Type := list (yaml * yaml).

(** [bool(v)]: Python's truth value. *)
Definition truthy (v : yaml) : bool :=
  match v with
  | YNull => false
  | YBool b => b
  | YInt z => negb (z =? 0)
  | YFloat f => negb (PrimFloat.eqb f 0)
  | YStr s => match s with [] => false | _ => true end
  | YDate _ _ _ => true
  | YList l => match l with [] => false | _ => true end
  | YDict d => match d with [] => false | _ => true end
  | YSet l => match l with [] => false | _ => true end
  end.

(** Key equality against a [str] key: only a [str] equals a [str]. *)
Definition key_is (k : str) (key : yaml) : bool :=
  match key with
  | YStr s => str_eqb s k
  | _ => false
  end.

(** The entry of [d] under the string key [k], if any. *)
Fixpoint lookup (d : dict) (k : str) : option yaml :=
  match d with
  | [] => None
  | (key, v) :: d' => if key_is k key then Some v else lookup d' k
  end.

(** [k in d] *)
Definition has_key (d : dict) (k : str) : bool :=
  match lookup d k with Some _ => true | None => false end.

(** [d.get(k, default)] *)
Definition get (d : dict) (k : str) (default : yaml) : yaml :=
  match lookup d k with Some v => v | None => default end.

(* ===================================================================== *)
(** ** Layout blocks (the arguments handed to the layout library) *)
(* ===================================================================== *)

(** [reportlab.lib.units.inch] *)
Definition inch : float := 72%float.

(** [ParagraphStyle(name=..., parent=..., **attrs)] *)
Record ParagraphStyle : Type := {
  style_name : string;
  style_parent : string;
  style_attrs : list (string * yaml)
}.

(** One [TableStyle] command: name, first cell, last cell, value. *)
Definition table_cmd : Type := (string * (Z * Z) * (Z * Z) * yaml)%type.

(** The flowables the program builds, each with the arguments it was built
    from.  [Spacer], [HRFlowable] and [Table] only store their arguments;
    [Paragraph] parses its text when it is built and can raise, so the
    program's calls of that constructor go through [paragraph] below. *)
Inductive flowable : Type :=
| Paragraph (text : yaml) (style : ParagraphStyle)
| Spacer (width : Z) (height : float)
| HRFlowable (width : str) (thickness : Z) (color : str) (spaceAfter : Z)
| Table (cells : list (list flowable)) (colWidths : list float)
        (style : list table_cmd).

(* ===================================================================== *)
(** ** Exceptions *)
(* ===================================================================== *)

Inductive exn : Type :=
| FileNotFoundError
| YAMLError (msg : str)
| ValueError (msg : str)
| TypeError
| AttributeError
| KeyError
| OverflowError.

(* ===================================================================== *)
(** ** The runtime *)
(* ===================================================================== *)

(** The parts of Python's runtime and of the layout library that the program
    calls and whose tables are not part of the repository: the shortest-digits
    printing of floats, [repr] of a string, the Unicode case mappings
    ([str.lower], [str.title]), [pathlib] ([path_text s] is [str(Path(s))] and
    [path_join a b] is [str(Path(a) / b)]), and the markup parser of the
    layout library: [paragraph_error text style] is the exception that
    [Paragraph(text, style)] raises for a [str] text, if it raises one (a
    [ValueError] for a text that is not well-formed markup, such as an
    unclosed tag).  On ASCII text [str.lower] is the ASCII lower-casing. *)
Class Runtime : Type := {
  float_str : float -> str;
  str_repr : str -> str;
  str_lower : str -> str;
  str_title : str -> str;
  path_text : str -> str;
  path_join : str -> str -> str;
  paragraph_error : str -> ParagraphStyle -> option exn;
  str_lower_ascii : forall s, Forall is_ascii s -> str_lower s = map ascii_lower s
}.

(* ===================================================================== *)
(** ** State and the monad of the program *)
(* ===================================================================== *)

(** How a computation ends: normally, with an exception in flight, or with
    [sys.exit(code)]. *)
Inductive result (A : Type) : Type :=
| Ok (a : A)
| Raise (e : exn)
| SysExit (code : Z).
Arguments Ok {A} a.
Arguments Raise {A} e.
Arguments SysExit {A} code.

(** The mutable state: [self.story] and what has been printed so far. *)
Record state : Type := mkState {
  story : list flowable;
  stdout : list str
}.

Definition M (A : Type) : Type := state -> state * result A.

Definition ret {A} (a : A) : M A := fun s => (s, Ok a).

Definition bind {A B} (m : M A) (k : A -> M B) : M B :=
  fun s =>
    match m s with
    | (s', Ok a) => k a s'
    | (s', Raise e) => (s', Raise e)
    | (s', SysExit c) => (s', SysExit c)
    end.

Definition raise {A} (e : exn) : M A := fun s => (s, Raise e).

(** [sys.exit(code)] *)
Definition sys_exit {A} (code : Z) : M A := fun s => (s, SysExit code).

(** [self.story.append(b)] *)
Definition append (b : flowable) : M unit :=
  fun s => (mkState (story s ++ [b]) (stdout s), Ok tt).

(** [print(line)] *)
Definition print (line : str) : M unit :=
  fun s => (mkState (story s) (stdout s ++ [line]), Ok tt).

(** [self.story = []] *)
Definition reset_story : M unit :=
  fun s => (mkState [] (stdout s), Ok tt).

(** [try: body except ...: handler]; [handler e = None] when no clause
    matches [e]. *)
Definition try_except {A} (body : M A) (handler : exn -> option (M A)) : M A :=
  fun s =>
    match body s with
    | (s', Raise e) =>
        match handler e with
        | Some h => h s'
        | None => (s', Raise e)
        end
    | r => r
    end.


Declare Scope monad_scope.
Delimit Scope monad_scope with monad.
Notation "x <- m ;; k" := (bind m (fun x => k))
  (at level 61, m at next level, right associativity) : monad_scope.
Notation "m ;; k" := (bind m (fun _ => k))
  (at level 61, right associativity) : monad_scope.
Local Open Scope monad_scope.

(** [if c: body] *)
Definition when (c : bool) (body : M unit) : M unit :=
  if c then body else ret tt.

(** [for x in xs: body(x)] over an already materialised sequence. *)
Fixpoint for_each {A} (xs : list A) (body : A -> M unit) : M unit :=
  match xs with
  | [] => ret tt
  | x :: xs' => body x ;; for_each xs' body
  end.

(** [enumerate(xs)] *)
Fixpoint enumerate_from {A} (i : nat) (xs : list A) : list (nat * A) :=
  match xs with
  | [] => []
  | x :: xs' => (i, x) :: enumerate_from (S i) xs'
  end.
Definition enumerate {A} (xs : list A) : list (nat * A) := enumerate_from 0 xs.

(** The exit status the operating system sees: an uncaught exception prints a
    traceback and exits with status 1. *)
Definition exit_status {A} (r : result A) : Z :=
  match r with
  | Ok _ => 0
  | Raise _ => 1
  | SysExit code => code
  end.

(** A freshly started process. *)
Definition initial : state := mkState [] [].

(* ===================================================================== *)
(** ** The environment of a run *)
(* ===================================================================== *)

(** What the file at a path holds, as [open(path)] followed by
    [yaml.safe_load] reads it: no such file ([FileNotFoundError]); text that
    is not YAML ([yaml.YAMLError] with its message); text on which reading or
    building the document raises a [ValueError] that is not a
    [yaml.YAMLError] (bytes that are not UTF-8, a date such as [2020-13-45],
    [!!int abc]); or a document.  Other I/O errors are not modelled. *)
Inductive source_file : Type :=
| NoSuchFile
| Malformed (err : str)
| Rejected (msg : str)
| Parsed (document : yaml).

(** How [doc.build(story)] ends.  The layout library takes the blocks off
    the list it is given as it lays them out: after a successful build the
    list is empty; after a failed one it holds what the library left in it,
    and [e] is the text of the exception. *)
Inductive build_outcome : Type :=
| Built
| BuildFailed (remaining : list flowable) (e : str).

(** The surroundings of one process: its arguments; the files it can read,
    each with the document it holds (the elements of a [!!set] node in
    document order); the order in which this process iterates a set built
    from given elements, which follows their hashes and so changes with the
    hash seed from one process to the next; and the render delegate,
    [doc_build w path m story] being
    [SimpleDocTemplate(path, margins m).build(story)].  Creating the output
    directory is taken to succeed, and the standard output to accept every
    line. *)
Record World : Type := {
  argv : list str;
  files : str -> source_file;
  hash_order : list yaml -> list yaml;
  hash_order_permutes : forall elements, Permutation (hash_order elements) elements;
  doc_build : str -> float -> list flowable -> build_outcome
}.

(** The Python object [yaml.safe_load] builds for a document: every set is
    laid out in the iteration order of the process. *)
Fixpoint as_loaded (order : list yaml -> list yaml) (v : yaml) : yaml :=
  match v with
  | YList l => YList (map (as_loaded order) l)
  | YDict d =>
      YDict (map (fun kv : yaml * yaml =>
                    (as_loaded order (fst kv), as_loaded order (snd kv))) d)
  | YSet l => YSet (order (map (as_loaded order) l))
  | _ => v
  end.

(** [open(path)] followed by [yaml.safe_load], in the process [w]. *)
Definition open_and_load (w : World) (path : str) : source_file :=
  match files w path with
  | Parsed document => Parsed (as_loaded (hash_order w) document)
  | other => other
  end.

Section Program.
Context {RT : Runtime}.

(** [repr(v)] *)
Fixpoint py_repr (v : yaml) : str :=
  match v with
  | YNull => u "None"
  | YBool true => u "True"
  | YBool false => u "False"
  | YInt z => str_of_Z z
  | YFloat f => float_str f
  | YStr s => str_repr s
  | YDate y m d =>
      u "datetime.date(" ++ str_of_Z y ++ u ", " ++ str_of_Z m ++ u ", "
        ++ str_of_Z d ++ u ")"
  | YList l => u "[" ++ join (u ", ") (map py_repr l) ++ u "]"
  | YDict d =>
      u "{"
        ++ join (u ", ")
             (map (fun kv : yaml * yaml =>
                     let (k, x) := kv in py_repr k ++ u ": " ++ py_repr x) d)
        ++ u "}"
  | YSet l =>
      match l with
      | [] => u "set()"
      | _ :: _ => u "{" ++ join (u ", ") (map py_repr l) ++ u "}"
      end
  end.

(** [str(v)], which is also what an f-string field [{v}] prints. *)
Definition py_str (v : yaml) : str :=
  match v with
  | YStr s => s
  | YDate y m d => zero_pad 4 y ++ u "-" ++ zero_pad 2 m ++ u "-" ++ zero_pad 2 d
  | _ => py_repr v
  end.



(* ===================================================================== *)
(** ** The dynamic operations the program applies to document values *)
(* ===================================================================== *)

(** [v.get(...)] and [v.items()]: only a mapping has these attributes. *)
Definition as_dict (v : yaml) : M dict :=
  match v with
  | YDict d => ret d
  | _ => raise AttributeError
  end.

(** The elements [for x in v] visits. *)
Definition py_iter (v : yaml) : M (list yaml) :=
  match v with
  | YList l => ret l
  | YDict d => ret (map fst d)
  | YSet l => ret l
  | YStr s => ret (map (fun c => YStr [c]) s)
  | _ => raise TypeError
  end.

(** [k in v] for a string [k]: key of a mapping, element of a sequence or
    of a set, substring of a string. *)
Definition py_in (k : str) (v : yaml) : M bool :=
  match v with
  | YDict d => ret (has_key d k)
  | YList l | YSet l => ret (existsb (key_is k) l)
  | YStr s => ret (str_contains k s)
  | _ => raise TypeError
  end.

(** [v[k]] for a string [k]. *)
Definition py_getitem (v : yaml) (k : str) : M yaml :=
  match v with
  | YDict d =>
      match lookup d k with
      | Some x => ret x
      | None => raise KeyError
      end
  | _ => raise TypeError
  end.

Fixpoint strings_of (l : list yaml) : option (list str) :=
  match l with
  | [] => Some []
  | YStr s :: l' =>
      match strings_of l' with
      | Some ss => Some (s :: ss)
      | None => None
      end
  | _ :: _ => None
  end.

(** [sep.join(parts)]: every part must be a [str]. *)
Definition py_join (sep : str) (parts : list yaml) : M str :=
  match strings_of parts with
  | Some ss => ret (join sep ss)
  | None => raise TypeError
  end.

(** [v.strip()] *)
Definition py_strip (v : yaml) : M str :=
  match v with
  | YStr s => ret (strip s)
  | _ => raise AttributeError
  end.

(** [v += text] for a string [text]: concatenation on a string, extension by
    the characters of [text] on a list.  (On a list Python extends the object
    in place, so the list held by the document grows too.  The document is
    not tracked as state: the only use of the result is the [Paragraph] built
    from it in the next statement, which raises on a list.) *)
Definition py_iadd (v : yaml) (text : str) : M yaml :=
  match v with
  | YStr s => ret (YStr (s ++ text))
  | YList l => ret (YList (l ++ map (fun c => YStr [c]) text))
  | _ => raise TypeError
  end.

(** [float(z)]: round to nearest, ties to even. *)
Definition float_of_Z (z : Z) : float :=
  SF2Prim (binary_normalize prec emax z 0 false).

(** [v * inch] *)
Definition times_inch (v : yaml) : M float :=
  match v with
  | YFloat f => ret (f * inch)%float
  | YInt z =>
      let f := float_of_Z z in
      if is_infinity f then raise OverflowError else ret (f * inch)%float
  | YBool b => ret ((if b then 1 else 0) * inch)%float
  | _ => raise TypeError
  end.

(* ===================================================================== *)
(** ** Configuration and styles *)
(* ===================================================================== *)

(** The dictionary [_load_config] returns, one field per key. *)
Record Config : Type := {
  font_name : yaml;
  font_name_bold : yaml;
  font_name_italic : yaml;
  name_size : yaml;
  section_header_size : yaml;
  title_size : yaml;
  body_size : yaml;
  margin : yaml;
  section_spacing : yaml;
  item_spacing : yaml;
  section_order : yaml;
  footer : yaml
}.

Definition default_section_order : list str :=
  [u "summary"; u "experience"; u "education"; u "skills"; u "projects";
   u "certifications"; u "awards"; u "publications"; u "languages";
   u "volunteer"].

Definition _load_config (data : dict) : M Config :=
  config <- as_dict (get data (u "config") (YDict [])) ;;
  fonts <- as_dict (get config (u "fonts") (YDict [])) ;;
  ret {|
    font_name := get fonts (u "name") (YStr (u "Helvetica"));
    font_name_bold := get fonts (u "name_bold") (YStr (u "Helvetica-Bold"));
    font_name_italic := get fonts (u "name_italic") (YStr (u "Helvetica-Oblique"));
    name_size := get fonts (u "name_size") (YInt 20);
    section_header_size := get fonts (u "section_header_size") (YInt 12);
    title_size := get fonts (u "title_size") (YInt 10);
    body_size := get fonts (u "body_size") (YInt 9);
    margin := get config (u "margin") (YFloat 0.6);
    section_spacing := get config (u "section_spacing") (YFloat 0.08);
    item_spacing := get config (u "item_spacing") (YFloat 0.06);
    section_order :=
      get config (u "section_order") (YList (map YStr default_section_order));
    footer := get config (u "footer") (YBool false)
  |}.

(** The names under which [_create_styles] registers its styles. *)
Inductive style_key : Type :=
| Name | Contact | SectionHeader | ItemTitle | ItemSubtitle
| DateRange | ResumeBody | Summary | SkillItem | Footer.

(** [TA_CENTER], [TA_RIGHT], [TA_JUSTIFY] of [reportlab.lib.enums] *)
Definition TA_CENTER : yaml := YInt 1.
Definition TA_RIGHT : yaml := YInt 2.
Definition TA_JUSTIFY : yaml := YInt 4.

Definition HexColor (hex : string) : yaml := YStr (u hex).

Definition attr (k : string) (v : yaml) : string * yaml := (k, v).

(** The style sheet: [self.styles[key]] for the ten styles the program adds. *)
Definition _create_styles (config : Config) (key : style_key) : ParagraphStyle :=
  let font_bold := font_name_bold config in
  let font_italic := font_name_italic config in
  match key with
  | Name =>
      {| style_name := "Name"; style_parent := "Heading1";
         style_attrs :=
           [attr "fontSize" (name_size config); attr "textColor" (HexColor "#000000");
            attr "spaceAfter" (YInt 4); attr "alignment" (TA_CENTER);
            attr "fontName" (font_bold)] |}
  | Contact =>
      {| style_name := "Contact"; style_parent := "Normal";
         style_attrs :=
           [attr "fontSize" (body_size config); attr "textColor" (HexColor "#333333");
            attr "alignment" (TA_CENTER); attr "spaceAfter" (YInt 8)] |}
  | SectionHeader =>
      {| style_name := "SectionHeader"; style_parent := "Heading2";
         style_attrs :=
           [attr "fontSize" (section_header_size config);
            attr "textColor" (HexColor "#000000"); attr "spaceAfter" (YInt 4);
            attr "spaceBefore" (YInt 8); attr "fontName" (font_bold);
            attr "borderWidth" (YInt 0); attr "borderPadding" (YInt 0);
            attr "leading" (YInt 14)] |}
  | ItemTitle =>
      {| style_name := "ItemTitle"; style_parent := "Normal";
         style_attrs :=
           [attr "fontSize" (title_size config); attr "textColor" (HexColor "#000000");
            attr "fontName" (font_bold); attr "spaceAfter" (YInt 1);
            attr "leading" (YInt 12)] |}
  | ItemSubtitle =>
      {| style_name := "ItemSubtitle"; style_parent := "Normal";
         style_attrs :=
           [attr "fontSize" (body_size config); attr "textColor" (HexColor "#333333");
            attr "fontName" (font_italic); attr "spaceAfter" (YInt 1);
            attr "leading" (YInt 11)] |}
  | DateRange =>
      {| style_name := "DateRange"; style_parent := "Normal";
         style_attrs :=
           [attr "fontSize" (body_size config); attr "textColor" (HexColor "#666666");
            attr "alignment" (TA_RIGHT); attr "leading" (YInt 11)] |}
  | ResumeBody =>
      {| style_name := "ResumeBody"; style_parent := "Normal";
         style_attrs :=
           [attr "fontSize" (body_size config); attr "textColor" (HexColor "#000000");
            attr "spaceAfter" (YInt 2); attr "leading" (YInt 12);
            attr "leftIndent" (YInt 0); attr "bulletIndent" (YInt 10)] |}
  | Summary =>
      {| style_name := "Summary"; style_parent := "Normal";
         style_attrs :=
           [attr "fontSize" (body_size config); attr "textColor" (HexColor "#000000");
            attr "spaceAfter" (YInt 4); attr "leading" (YInt 12);
            attr "alignment" (TA_JUSTIFY)] |}
  | SkillItem =>
      {| style_name := "SkillItem"; style_parent := "Normal";
         style_attrs :=
           [attr "fontSize" (body_size config); attr "textColor" (HexColor "#000000");
            attr "spaceAfter" (YInt 2); attr "leading" (YInt 11)] |}
  | Footer =>
      {| style_name := "Footer"; style_parent := "Normal";
         style_attrs :=
           [attr "fontSize" (YInt 7); attr "textColor" (HexColor "#999999");
            attr "alignment" (TA_CENTER); attr "leading" (YInt 9)] |}
  end.

(** The attributes [__init__] sets on [self]; [self.story] lives in [state]. *)
Record ResumeGenerator : Type := {
  yaml_file : str;
  output_dir : str;
  data : dict;
  config : Config;
  styles : style_key -> ParagraphStyle
}.


(* ===================================================================== *)
(** ** Loading *)
(* ===================================================================== *)

Definition _load_yaml (w : World) (yaml_file : str) : M dict :=
  try_except
    (match open_and_load w yaml_file with
     | NoSuchFile => raise FileNotFoundError
     | Malformed err => raise (YAMLError err)
     | Rejected msg => raise (ValueError msg)
     | Parsed data =>
         if negb (truthy data) then raise (ValueError (u "YAML file is empty"))
         else
           has_personal <- py_in (u "personal") data ;;
           if negb has_personal
           then raise (ValueError (u "Missing required 'personal' section"))
           else
             personal <- py_getitem data (u "personal") ;;
             has_name <- py_in (u "name") personal ;;
             if negb has_name
             then raise (ValueError
                           (u "Missing required 'name' field in personal section"))
             else
               (* [return data]: [data['personal']] was evaluated, so [data]
                  is a mapping here *)
               match data with
               | YDict d => ret d
               | _ => raise TypeError
               end
     end)
    (fun e =>
       match e with
       | FileNotFoundError =>
           Some (print (u "Error: YAML file '" ++ yaml_file ++ u "' not found") ;;
                 sys_exit 1)
       | YAMLError err =>
           Some (print (u "Error parsing YAML file: " ++ err) ;; sys_exit 1)
       | ValueError msg =>
           Some (print (u "Validation error: " ++ msg) ;; sys_exit 1)
       | _ => None
       end).

(** [ResumeGenerator(yaml_file, output_dir)] *)
Definition __init__ (w : World) (yaml_file output_dir : str) : M ResumeGenerator :=
  let yaml_file := path_text yaml_file in
  data <- _load_yaml w yaml_file ;;
  config <- _load_config data ;;
  let styles := _create_styles config in
  reset_story ;;
  ret {| yaml_file := yaml_file; output_dir := output_dir; data := data;
         config := config; styles := styles |}.

(* ===================================================================== *)
(** ** Helpers of the renderers *)
(* ===================================================================== *)

(** [Paragraph(text, style)].  The constructor first splits its text into
    lines, so a text that is not a [str] raises [AttributeError]; a [str] is
    then parsed as markup, which can raise as well. *)
Definition paragraph (text : yaml) (style : ParagraphStyle) : M flowable :=
  match text with
  | YStr s =>
      match paragraph_error s style with
      | None => ret (Paragraph text style)
      | Some e => raise e
      end
  | _ => raise AttributeError
  end.

(** [self.story.append(Paragraph(text, style))] *)
Definition append_paragraph (text : yaml) (style : ParagraphStyle) : M unit :=
  block <- paragraph text style ;;
  append block.

Definition _add_section_header (self : ResumeGenerator) (title : str) : M unit :=
  append_paragraph (YStr title) (styles self SectionHeader) ;;
  append (HRFlowable (u "100%") 1 (u "#000000") 4).

Definition _format_date_range (start_date end_date present : yaml) : str :=
  if negb (truthy start_date) then []
  else
    let start :=
      match start_date with
      | YStr s => s
      | _ => py_str start_date
      end in
    if truthy present
       || (truthy end_date && str_eqb (str_lower (py_str end_date)) (u "present"))
    then start ++ u " - Present"
    else if truthy end_date then
      let end_ :=
        match end_date with
        | YStr s => s
        | _ => py_str end_date
        end in
      start ++ u " - " ++ end_
    else start.

(** The separator [' • '] of contact lines and subtitles. *)
Definition dot_sep : str := [32%N; bullet; 32%N].

(** The [f"• {text}"] of a bullet line. *)
Definition bullet_text (text : str) : str := bullet :: 32%N :: text.

Definition cmd (name : string) (first last : Z * Z) (v : yaml) : table_cmd :=
  (name, first, last, v).

(** The title/date row every renderer builds the same way:
    [Table([[left, right]], colWidths=[4.5*inch, 2*inch])] with the
    zero-padding [TableStyle], for two paragraphs that have been built. *)
Definition two_column_row (left right : flowable) : flowable :=
  Table [[left; right]] [(4.5 * inch)%float; (2 * inch)%float]
    [cmd "VALIGN" (0, 0) (-1, -1) (YStr (u "TOP"));
     cmd "LEFTPADDING" (0, 0) (-1, -1) (YInt 0);
     cmd "RIGHTPADDING" (0, 0) (-1, -1) (YInt 0);
     cmd "TOPPADDING" (0, 0) (-1, -1) (YInt 0);
     cmd "BOTTOMPADDING" (0, 0) (-1, -1) (YInt 0)].

(** The row built from two texts and appended: the left paragraph is built
    first, in the [ItemTitle] style, then the right one, in the [DateRange]
    style. *)
Definition append_row (self : ResumeGenerator) (left right : yaml) : M unit :=
  left_cell <- paragraph left (styles self ItemTitle) ;;
  right_cell <- paragraph right (styles self DateRange) ;;
  append (two_column_row left_cell right_cell).

(** [self.story.append(Spacer(1, v*inch))] for a configured [v]. *)
Definition append_spacer (v : yaml) : M unit :=
  h <- times_inch v ;;
  append (Spacer 1 h).

(** [self.story.append(Spacer(1, c*inch))] for a literal [c]. *)
Definition append_fixed_spacer (c : float) : M unit :=
  append (Spacer 1 (c * inch)%float).

(** [if k in d: body(d[k])] *)
Definition if_key (d : dict) (k : str) (body : yaml -> M unit) : M unit :=
  match lookup d k with
  | Some v => body v
  | None => ret tt
  end.


(** [for h in highlights: self.story.append(Paragraph(f"• {h}", ResumeBody))] *)
Definition bullets (self : ResumeGenerator) (highlights : yaml) : M unit :=
  hs <- py_iter highlights ;;
  for_each hs (fun highlight =>
    append_paragraph (YStr (bullet_text (py_str highlight)))
                     (styles self ResumeBody)).

(** The same loop with the guard of [_build_experience]:
    [if highlight and highlight.strip():], which skips empty and
    whitespace-only highlights. *)
Definition nonblank_bullets (self : ResumeGenerator) (highlights : yaml) : M unit :=
  hs <- py_iter highlights ;;
  for_each hs (fun highlight =>
    keep <- (if truthy highlight
             then stripped <- py_strip highlight ;;
                  ret (match stripped with [] => false | _ => true end)
             else ret false) ;;
    when keep
      (append_paragraph (YStr (bullet_text (py_str highlight)))
                        (styles self ResumeBody))).

(* ===================================================================== *)
(** ** The header *)
(* ===================================================================== *)

(** The entries of [links.items()] with a truthy value, each as
    [f"{key.title()}: {value}"]. *)
Fixpoint link_parts (entries : dict) : M (list str) :=
  match entries with
  | [] => ret []
  | (key, value) :: rest =>
      if truthy value then
        title <- match key with
                 | YStr k => ret (str_title k)
                 | _ => raise AttributeError
                 end ;;
        parts <- link_parts rest ;;
        ret ((title ++ u ": " ++ py_str value) :: parts)
      else link_parts rest
  end.

Definition _build_header (self : ResumeGenerator) : M unit :=
  personal <- as_dict (get (data self) (u "personal") (YDict [])) ;;
  (* Name *)
  let name := get personal (u "name") (YStr []) in
  append_paragraph name (styles self Name) ;;
  (* Contact information *)
  let contact_parts := [] in
  let contact_parts :=
    match lookup personal (u "email") with
    | Some email => contact_parts ++ [email]
    | None => contact_parts
    end in
  let contact_parts :=
    match lookup personal (u "phone") with
    | Some phone => contact_parts ++ [phone]
    | None => contact_parts
    end in
  contact_parts <-
    match lookup personal (u "location") with
    | Some (YDict location) =>
        let part k :=
          match lookup location k with
          | Some v => [v]
          | None => []
          end in
        let loc_parts := part (u "city") ++ part (u "state") ++ part (u "country") in
        text <- py_join (u ", ") loc_parts ;;
        ret (contact_parts ++ [YStr text])
    | Some location => ret (contact_parts ++ [YStr (py_str location)])
    | None => ret contact_parts
    end ;;
  when (match contact_parts with [] => false | _ => true end)
    (contact_text <- py_join dot_sep contact_parts ;;
     append_paragraph (YStr contact_text) (styles self Contact)) ;;
  (* Links *)
  let links := get personal (u "links") (YDict []) in
  when (truthy links)
    (entries <- as_dict links ;;
     parts <- link_parts entries ;;
     when (match parts with [] => false | _ => true end)
       (append_paragraph (YStr (join dot_sep parts)) (styles self Contact))) ;;
  append_spacer (section_spacing (config self)).

(* ===================================================================== *)
(** ** The section renderers *)
(* ===================================================================== *)

Definition _build_summary (self : ResumeGenerator) : M unit :=
  match lookup (data self) (u "summary") with
  | None => ret tt
  | Some summary =>
      let emit (summary_text : str) : M unit :=
        when (match summary_text with [] => false | _ => true end)
          (_add_section_header self (u "PROFESSIONAL SUMMARY") ;;
           append_paragraph (YStr summary_text) (styles self Summary) ;;
           append_spacer (item_spacing (config self))) in
      match summary with
      | YStr summary_text => emit summary_text
      | YList lines =>
          summary_text <- py_join (u " ") lines ;;
          emit summary_text
      | _ => ret tt
      end
  end.

Definition _build_experience (self : ResumeGenerator) : M unit :=
  match lookup (data self) (u "experience") with
  | None => ret tt
  | Some experiences =>
      if negb (truthy experiences) then ret tt
      else
        _add_section_header self (u "PROFESSIONAL EXPERIENCE") ;;
        items <- py_iter experiences ;;
        for_each (enumerate items) (fun '(i, exp) =>
          when (0 <? i)%nat (append_spacer (item_spacing (config self))) ;;
          exp <- as_dict exp ;;
          let title := get exp (u "title") (YStr []) in
          let company := get exp (u "company") (YStr []) in
          let date_range :=
            _format_date_range (get exp (u "start_date") YNull)
                               (get exp (u "end_date") YNull)
                               (get exp (u "present") (YBool false)) in
          let location := get exp (u "location") (YStr []) in
          (* Title row *)
          append_row self title (YStr date_range) ;;
          (* Company and location *)
          when (truthy company)
            (company_location <-
               (if truthy location
                then py_iadd company (dot_sep ++ py_str location)
                else ret company) ;;
             append_paragraph company_location (styles self ItemSubtitle)) ;;
          (* Description *)
          if_key exp (u "description") (fun description =>
            when (truthy description)
              (append_fixed_spacer 0.03 ;;
               append_paragraph description (styles self ResumeBody))) ;;
          (* Highlights as bullet points, skipping empty/whitespace-only ones *)
          if_key exp (u "highlights") (fun highlights =>
            when (truthy highlights)
              (append_fixed_spacer 0.03 ;;
               nonblank_bullets self highlights))) ;;
        append_spacer (section_spacing (config self))
  end.

Definition _build_education (self : ResumeGenerator) : M unit :=
  match lookup (data self) (u "education") with
  | None => ret tt
  | Some education =>
      if negb (truthy education) then ret tt
      else
        _add_section_header self (u "EDUCATION") ;;
        items <- py_iter education ;;
        for_each (enumerate items) (fun '(i, edu) =>
          when (0 <? i)%nat (append_spacer (item_spacing (config self))) ;;
          edu <- as_dict edu ;;
          (* Degree and date *)
          let degree := get edu (u "degree") (YStr []) in
          let field := get edu (u "field") (YStr []) in
          let degree_text :=
            if truthy degree && truthy field
            then YStr (py_str degree ++ u " in " ++ py_str field)
            else if truthy degree then degree
            else if truthy field then field
            else YStr [] in
          let date_range :=
            _format_date_range (get edu (u "start_date") YNull)
                               (get edu (u "end_date") YNull)
                               (get edu (u "present") (YBool false)) in
          when (truthy degree_text)
            (append_row self degree_text (YStr date_range)) ;;
          (* Institution and location *)
          let institution := get edu (u "institution") (YStr []) in
          let location := get edu (u "location") (YStr []) in
          when (truthy institution)
            (inst_location <-
               (if truthy location
                then py_iadd institution (dot_sep ++ py_str location)
                else ret institution) ;;
             append_paragraph inst_location (styles self ItemSubtitle)) ;;
          (* GPA, honors *)
          let details := [] in
          let details :=
            match lookup edu (u "gpa") with
            | Some gpa => details ++ [YStr (u "GPA: " ++ py_str gpa)]
            | None => details
            end in
          let details :=
            match lookup edu (u "honors") with
            | Some honors => details ++ [honors]
            | None => details
            end in
          when (match details with [] => false | _ => true end)
            (details_text <- py_join dot_sep details ;;
             append_paragraph (YStr details_text) (styles self ResumeBody)) ;;
          (* Additional highlights *)
          if_key edu (u "highlights") (fun highlights =>
            when (truthy highlights) (bullets self highlights))) ;;
        append_spacer (section_spacing (config self))
  end.


Definition _build_skills (self : ResumeGenerator) : M unit :=
  match lookup (data self) (u "skills") with
  | None => ret tt
  | Some skills =>
      if negb (truthy skills) then ret tt
      else
        _add_section_header self (u "SKILLS") ;;
        match skills with
        | YDict categories =>
            (* Categorized skills *)
            for_each categories (fun '(category, skill_list) =>
              when (truthy skill_list)
                (let category_title := u "<b>" ++ py_str category ++ u ":</b> " in
                 skills_text <-
                   match skill_list with
                   | YList l => py_join (u ", ") l
                   | _ => ret (py_str skill_list)
                   end ;;
                 let full_text := category_title ++ skills_text in
                 append_paragraph (YStr full_text) (styles self SkillItem)))
        | YList l =>
            (* Simple list of skills *)
            skills_text <- py_join (u ", ") l ;;
            append_paragraph (YStr skills_text) (styles self SkillItem)
        | _ => ret tt
        end ;;
        append_spacer (section_spacing (config self))
  end.

Definition _build_projects (self : ResumeGenerator) : M unit :=
  match lookup (data self) (u "projects") with
  | None => ret tt
  | Some projects =>
      if negb (truthy projects) then ret tt
      else
        _add_section_header self (u "PROJECTS") ;;
        items <- py_iter projects ;;
        for_each (enumerate items) (fun '(i, project) =>
          when (0 <? i)%nat (append_spacer (item_spacing (config self))) ;;
          project <- as_dict project ;;
          (* Project name and date *)
          let name := get project (u "name") (YStr []) in
          let date := get project (u "date") (YStr []) in
          when (truthy name)
            (append_row self name date) ;;
          (* Technologies/tools *)
          if_key project (u "technologies") (fun tech =>
            tech_text <-
              match tech with
              | YList l => py_join (u ", ") l
              | _ => ret (py_str tech)
              end ;;
            append_paragraph (YStr (u "<i>Technologies:</i> " ++ tech_text))
                             (styles self ItemSubtitle)) ;;
          (* Description *)
          if_key project (u "description") (fun description =>
            append_fixed_spacer 0.03 ;;
            append_paragraph description (styles self ResumeBody)) ;;
          (* Highlights *)
          if_key project (u "highlights") (fun highlights =>
            when (truthy highlights)
              (append_fixed_spacer 0.03 ;;
               bullets self highlights)) ;;
          (* URL *)
          if_key project (u "url") (fun url =>
            let url_text := u "<i>Link:</i> " ++ py_str url in
            append_paragraph (YStr url_text) (styles self ResumeBody))) ;;
        append_spacer (section_spacing (config self))
  end.

Definition _build_certifications (self : ResumeGenerator) : M unit :=
  match lookup (data self) (u "certifications") with
  | None => ret tt
  | Some certifications =>
      if negb (truthy certifications) then ret tt
      else
        _add_section_header self (u "CERTIFICATIONS") ;;
        items <- py_iter certifications ;;
        for_each items (fun cert =>
          cert <- as_dict cert ;;
          let name := get cert (u "name") (YStr []) in
          let issuer := get cert (u "issuer") (YStr []) in
          let date := get cert (u "date") (YStr []) in
          (* Certification name and date *)
          when (truthy name)
            (append_row self name date) ;;
          when (truthy issuer)
            (append_paragraph issuer (styles self ItemSubtitle)) ;;
          if_key cert (u "credential_id") (fun credential_id =>
            let cred_text := u "Credential ID: " ++ py_str credential_id in
            append_paragraph (YStr cred_text) (styles self ResumeBody)) ;;
          append_fixed_spacer 0.04) ;;
        append_fixed_spacer 0.03
  end.

Definition _build_awards (self : ResumeGenerator) : M unit :=
  match lookup (data self) (u "awards") with
  | None => ret tt
  | Some awards =>
      if negb (truthy awards) then ret tt
      else
        _add_section_header self (u "AWARDS & HONORS") ;;
        items <- py_iter awards ;;
        for_each items (fun award =>
          award <- as_dict award ;;
          let name := get award (u "name") (YStr []) in
          let issuer := get award (u "issuer") (YStr []) in
          let date := get award (u "date") (YStr []) in
          when (truthy name)
            (append_row self name date) ;;
          when (truthy issuer)
            (append_paragraph issuer (styles self ItemSubtitle)) ;;
          if_key award (u "description") (fun description =>
            append_paragraph description (styles self ResumeBody)) ;;
          append_fixed_spacer 0.04) ;;
        append_fixed_spacer 0.03
  end.

Definition _build_publications (self : ResumeGenerator) : M unit :=
  match lookup (data self) (u "publications") with
  | None => ret tt
  | Some publications =>
      if negb (truthy publications) then ret tt
      else
        _add_section_header self (u "PUBLICATIONS") ;;
        items <- py_iter publications ;;
        for_each items (fun pub =>
          pub <- as_dict pub ;;
          let title := get pub (u "title") (YStr []) in
          let authors := get pub (u "authors") (YStr []) in
          let venue := get pub (u "venue") (YStr []) in
          let date := get pub (u "date") (YStr []) in
          when (truthy title)
            (append_paragraph (YStr (u "<b>" ++ py_str title ++ u "</b>"))
                              (styles self ItemTitle)) ;;
          when (truthy authors)
            (authors_text <-
               match authors with
               | YList l => py_join (u ", ") l
               | _ => ret (py_str authors)
               end ;;
             append_paragraph (YStr authors_text) (styles self ResumeBody)) ;;
          let venue_date := [] in
          let venue_date := if truthy venue then venue_date ++ [venue] else venue_date in
          let venue_date := if truthy date then venue_date ++ [date] else venue_date in
          when (match venue_date with [] => false | _ => true end)
            (venue_text <- py_join (u ", ") venue_date ;;
             append_paragraph (YStr (u "<i>" ++ venue_text ++ u "</i>"))
                              (styles self ItemSubtitle)) ;;
          if_key pub (u "doi") (fun doi =>
            let doi_text := u "DOI: " ++ py_str doi in
            append_paragraph (YStr doi_text) (styles self ResumeBody)) ;;
          append_fixed_spacer 0.04) ;;
        append_fixed_spacer 0.03
  end.

Definition _build_languages (self : ResumeGenerator) : M unit :=
  match lookup (data self) (u "languages") with
  | None => ret tt
  | Some languages =>
      if negb (truthy languages) then ret tt
      else
        _add_section_header self (u "LANGUAGES") ;;
        match languages with
        | YDict levels =>
            (* Languages with proficiency levels *)
            let lang_items :=
              map (fun '(lang, level) =>
                     py_str lang ++ u " (" ++ py_str level ++ u ")") levels in
            let lang_text := join (u ", ") lang_items in
            append_paragraph (YStr lang_text) (styles self SkillItem)
        | YList l =>
            (* Simple list *)
            for_each l (fun lang =>
              match lang with
              | YDict lang =>
                  let name := get lang (u "name") (YStr []) in
                  let level := get lang (u "level") (YStr []) in
                  when (truthy name)
                    (let lang_text := py_str name in
                     let lang_text :=
                       if truthy level
                       then lang_text ++ u " (" ++ py_str level ++ u ")"
                       else lang_text in
                     append_paragraph (YStr (bullet_text lang_text))
                                      (styles self ResumeBody))
              | _ =>
                  append_paragraph (YStr (bullet_text (py_str lang)))
                                   (styles self ResumeBody)
              end)
        | _ => ret tt
        end ;;
        append_spacer (section_spacing (config self))
  end.

Definition _build_volunteer (self : ResumeGenerator) : M unit :=
  match lookup (data self) (u "volunteer") with
  | None => ret tt
  | Some volunteer =>
      if negb (truthy volunteer) then ret tt
      else
        _add_section_header self (u "VOLUNTEER EXPERIENCE") ;;
        items <- py_iter volunteer ;;
        for_each (enumerate items) (fun '(i, vol) =>
          when (0 <? i)%nat (append_spacer (item_spacing (config self))) ;;
          vol <- as_dict vol ;;
          (* Role and date *)
          let role := get vol (u "role") (YStr []) in
          let organization := get vol (u "organization") (YStr []) in
          let date_range :=
            _format_date_range (get vol (u "start_date") YNull)
                               (get vol (u "end_date") YNull)
                               (get vol (u "present") (YBool false)) in
          when (truthy role)
            (append_row self role (YStr date_range)) ;;
          when (truthy organization)
            (append_paragraph organization (styles self ItemSubtitle)) ;;
          (* Description *)
          if_key vol (u "description") (fun description =>
            append_fixed_spacer 0.03 ;;
            append_paragraph description (styles self ResumeBody)) ;;
          (* Highlights *)
          if_key vol (u "highlights") (fun highlights =>
            when (truthy highlights)
              (append_fixed_spacer 0.03 ;;
               bullets self highlights))) ;;
        append_spacer (section_spacing (config self))
  end.


(* ===================================================================== *)
(** ** Assembling the document *)
(* ===================================================================== *)

(** The dictionary mapping section names to their build methods. *)
Definition section_builders : list (str * (ResumeGenerator -> M unit)) :=
  [(u "summary", _build_summary);
   (u "experience", _build_experience);
   (u "education", _build_education);
   (u "skills", _build_skills);
   (u "projects", _build_projects);
   (u "certifications", _build_certifications);
   (u "awards", _build_awards);
   (u "publications", _build_publications);
   (u "languages", _build_languages);
   (u "volunteer", _build_volunteer)].

Fixpoint builder_named (builders : list (str * (ResumeGenerator -> M unit)))
    (name : str) : option (ResumeGenerator -> M unit) :=
  match builders with
  | [] => None
  | (k, build) :: rest => if str_eqb name k then Some build else builder_named rest name
  end.

(** [section_name in section_builders] and [section_builders[section_name]]:
    a list, a mapping or a set cannot be hashed; any other value that is not
    one of the ten names is simply not a key. *)
Definition find_builder (section_name : yaml)
    : M (option (ResumeGenerator -> M unit)) :=
  match section_name with
  | YList _ | YDict _ | YSet _ => raise TypeError
  | YStr name => ret (builder_named section_builders name)
  | _ => ret None
  end.

(** The body of the loop over [section_order]. *)
Definition build_section (self : ResumeGenerator) (section_name : yaml) : M unit :=
  found <- find_builder section_name ;;
  match found with
  | Some build => build self
  | None =>
      print (u "Warning: Unknown section '" ++ py_str section_name
               ++ u "' in section_order config")
  end.

(** The footer step of [generate]. *)
Definition build_footer (self : ResumeGenerator) : M unit :=
  when (truthy (footer (config self)))
    (append_fixed_spacer 0.2 ;;
     let footer_text := u "Generated by Resume Generator | George Yuanji Wang" in
     append_paragraph (YStr footer_text) (styles self Footer)).

(** [generate] up to the hand-over to the render delegate: header, sections
    in the configured order, footer. *)
Definition build_story (self : ResumeGenerator) : M unit :=
  (* Build header (always first) *)
  _build_header self ;;
  (* Build sections in configured order *)
  order <- py_iter (section_order (config self)) ;;
  for_each order (build_section self) ;;
  (* Add footer if configured (always last) *)
  build_footer self.

(** [name.replace(' ', '_')] *)
Definition py_replace_spaces (name : yaml) : M str :=
  match name with
  | YStr s => ret (replace 32%N 95%N s)
  | YDate _ _ _ => raise TypeError
  | _ => raise AttributeError
  end.

(** The last step of [generate]: [doc.build(self.story)] inside its
    [try].  The render delegate works on the list object [self.story] itself,
    so what it leaves in the list is the story afterwards. *)
Definition build_pdf (w : World) (output_file : str) (m : float) : M str :=
  fun s =>
    match doc_build w output_file m (story s) with
    | Built =>
        (print (check_mark :: u " Resume generated successfully: " ++ output_file) ;;
         ret output_file) (mkState [] (stdout s))
    | BuildFailed remaining e =>
        (print (u "Error generating PDF: " ++ e) ;; sys_exit 1)
          (mkState remaining (stdout s))
    end.

Definition generate (w : World) (self : ResumeGenerator) : M str :=
  (* Determine output filename *)
  personal <- as_dict (get (data self) (u "personal") (YDict [])) ;;
  name <- py_replace_spaces (get personal (u "name") (YStr (u "resume"))) ;;
  let output_file := path_join (output_dir self) (name ++ u "_resume.pdf") in
  (* Create PDF document with configurable margins *)
  m <- times_inch (margin (config self)) ;;
  build_story self ;;
  (* Build the PDF *)
  build_pdf w output_file m.

Definition main (w : World) : M unit :=
  match argv w with
  | [] =>
      print (u "Usage: python resume_generator.py <yaml_file>") ;;
      print (10%N :: u "Example:") ;;
      print (u "  python resume_generator.py resume.yaml") ;;
      sys_exit 1
  | yaml_file :: _ =>
      print (u "Loading resume data from: " ++ yaml_file) ;;
      generator <- __init__ w yaml_file (u "output") ;;
      print (u "Generating PDF resume...") ;;
      output_file <- generate w generator ;;
      print (10%N :: repeat 61%N 60) ;;
      print (u "Resume successfully created!") ;;
      print (u "Output: " ++ output_file) ;;
      print (repeat 61%N 60)
  end.

(** One run of the program: the final state and how the process ended. *)
Definition run (w : World) : state * result unit := main w initial.

End Program.

(* ===================================================================== *)
(** ** A runtime for ASCII documents *)
(* ===================================================================== *)

(** [str.title()] on ASCII letters: the first letter of each run of letters in
    upper case, the others in lower case. *)
Definition is_upper (c : N) : bool := ((65 <=? c) && (c <=? 90))%N.
Definition is_lower (c : N) : bool := ((97 <=? c) && (c <=? 122))%N.

Fixpoint ascii_title_from (previous_is_cased : bool) (s : str) : str :=
  match s with
  | [] => []
  | c :: s' =>
      let c' :=
        if is_upper c then (if previous_is_cased then (c + 32)%N else c)
        else if is_lower c then (if previous_is_cased then c else (c - 32)%N)
        else c in
      c' :: ascii_title_from (is_upper c || is_lower c) s'
  end.

(** The markup of the documents below: plain text, an ampersand followed by
    a space, and the tags [<b>] and [<i>], closed in the order in which they
    were opened.  [open_tags] are the letters of the tags that are open, the
    innermost first. *)
Fixpoint simple_markup (open_tags : list N) (s : str) : bool :=
  match s with
  | [] => match open_tags with [] => true | _ :: _ => false end
  | c :: rest =>
      if (c =? 38)%N then                            (* & *)
        match rest with
        | c2 :: _ => (c2 =? 32)%N && simple_markup open_tags rest
        | [] => false
        end
      else if (c =? 60)%N then                       (* < *)
        match rest with
        | t :: c2 :: rest2 =>
            if ((t =? 98) || (t =? 105))%N && (c2 =? 62)%N     (* <b> <i> *)
            then simple_markup (t :: open_tags) rest2
            else if (t =? 47)%N then                            (* </ *)
              match rest2, open_tags with
              | c3 :: rest3, innermost :: others =>
                  (c2 =? innermost)%N && (c3 =? 62)%N && simple_markup others rest3
              | _, _ => false
              end
            else false
        | _ => false
        end
      else simple_markup open_tags rest
  end.

(** Python's runtime and the layout library restricted to what the ASCII
    documents below need: case mappings on ASCII letters, [repr] of a string
    without quotes or escapes, already normalised relative paths, and a
    markup parser that accepts [simple_markup] in every style.  The texts of
    the messages are not reproduced: [float_str] and the message of the
    parser are placeholders, and no statement below prints a float or shows
    that message. *)
Definition ascii_runtime : Runtime := {|
  float_str := fun f => if PrimFloat.is_nan f then u "nan" else u "<float>";
  str_repr := fun s => u "'" ++ s ++ u "'";
  str_lower := map ascii_lower;
  str_title := ascii_title_from false;
  path_text := fun s => s;
  path_join := fun a b => a ++ u "/" ++ b;
  paragraph_error := fun s _ =>
    if simple_markup [] s then None else Some (ValueError (u "<parse error>"));
  str_lower_ascii := fun s _ => eq_refl
|}.

(* ===================================================================== *)
(** ** Runs and documents used in the statements *)
(* ===================================================================== *)

(** The configuration of a document that has no [config] key. *)
Definition default_config : Config := {|
  font_name := YStr (u "Helvetica");
  font_name_bold := YStr (u "Helvetica-Bold");
  font_name_italic := YStr (u "Helvetica-Oblique");
  name_size := YInt 20;
  section_header_size := YInt 12;
  title_size := YInt 10;
  body_size := YInt 9;
  margin := YFloat 0.6;
  section_spacing := YFloat 0.08;
  item_spacing := YFloat 0.06;
  section_order := YList (map YStr default_section_order);
  footer := YBool false
|}.

(** [python resume_generator.py resume.yaml] where the file holds
    [document], in a process that iterates sets in document order, with a
    render delegate that succeeds. *)
Definition world_of (document : source_file) : World := {|
  argv := [u "resume.yaml"];
  files := fun _ => document;
  hash_order := fun elements => elements;
  hash_order_permutes := fun elements => Permutation_refl elements;
  doc_build := fun _ _ _ => Built
|}.

Definition key (k : string) : yaml := YStr (u k).
Definition text (s : string) : yaml := YStr (u s).

(** [personal: {name: <v>}] and nothing else. *)
Definition name_only (v : yaml) : dict :=
  [(key "personal", YDict [(key "name", v)])].

(** [personal:] with nothing under it. *)
Definition null_personal : dict := [(key "personal", YNull)].

(** A named person and [config:] with nothing under it. *)
Definition null_config : dict :=
  [(key "personal", YDict [(key "name", text "Ada Lovelace")]);
   (key "config", YNull)].

(** One entry with the same two highlights, the first one blank, in each of
    the four sections that render highlights. *)
Definition blank_highlights : dict :=
  let highlights := (key "highlights", YList [text "   "; text "Shipped"]) in
  [(key "personal", YDict [(key "name", text "Ada Lovelace")]);
   (key "experience", YList [YDict [(key "title", text "Engineer"); highlights]]);
   (key "education", YList [YDict [(key "degree", text "BSc"); highlights]]);
   (key "projects", YList [YDict [(key "name", text "Engine"); highlights]]);
   (key "volunteer", YList [YDict [(key "role", text "Mentor"); highlights]])].

(** Experience listed before education in the document, and a
    [section_order] that asks for education first and names a section that
    does not exist. *)
Definition reordered : dict :=
  [(key "personal", YDict [(key "name", text "Ada Lovelace")]);
   (key "experience", YList [YDict [(key "title", text "Engineer")]]);
   (key "education", YList [YDict [(key "degree", text "BSc")]]);
   (key "config",
    YDict [(key "section_order",
            YList [text "education"; text "hobbies"; text "experience"])])].

(** The same run with a render delegate that fails after it has taken the
    first block off the list. *)
Definition world_with_failing_delegate (document : source_file) : World := {|
  argv := [u "resume.yaml"];
  files := fun _ => document;
  hash_order := fun elements => elements;
  hash_order_permutes := fun elements => Permutation_refl elements;
  doc_build := fun _ _ blocks => BuildFailed (tl blocks) (u "disk full")
|}.



(** A named person, [skills: []] and no other section. *)
Definition empty_skills : dict :=
  [(key "personal", YDict [(key "name", text "Ada Lovelace")]);
   (key "skills", YList [])].

(** [reordered] with its keys in another order. *)
Definition reordered_keys : dict :=
  [(key "config",
    YDict [(key "section_order",
            YList [text "education"; text "hobbies"; text "experience"])]);
   (key "education", YList [YDict [(key "degree", text "BSc")]]);
   (key "experience", YList [YDict [(key "title", text "Engineer")]]);
   (key "personal", YDict [(key "name", text "Ada Lovelace")])].

Definition reordered_order : list yaml :=
  [text "education"; text "hobbies"; text "experience"].

(** A document with a section and no [personal] key. *)
Definition no_personal : dict := [(key "skills", YList [text "Rocq"])].

(** A [personal] mapping with an e-mail address and no name. *)
Definition no_name : dict :=
  [(key "personal", YDict [(key "email", text "ada@example.org")])].

(** [default_config] with another [section_spacing]. *)
Definition with_section_spacing (v : yaml) : Config := {|
  font_name := font_name default_config;
  font_name_bold := font_name_bold default_config;
  font_name_italic := font_name_italic default_config;
  name_size := name_size default_config;
  section_header_size := section_header_size default_config;
  title_size := title_size default_config;
  body_size := body_size default_config;
  margin := margin default_config;
  section_spacing := v;
  item_spacing := item_spacing default_config;
  section_order := section_order default_config;
  footer := footer default_config
|}.

Definition ada : yaml := YDict [(key "name", text "Ada Lovelace")].


Definition flat_skills : dict :=
  [(key "personal", ada); (key "skills", YList [text "Python"; text "Go"])].

Definition numbered_skills : dict :=
  [(key "personal", ada); (key "skills", YList [text "Python"; YInt 3])].

Definition categorized_skills : dict :=
  [(key "personal", ada);
   (key "skills",
    YDict [(key "Languages", YList [text "Python"; text "Go"]);
           (key "Tools", YList [])])].

Definition summary_lines : dict :=
  [(key "personal", ada);
   (key "summary", YList [text "Analyst."; text "Wrote the first program."])].

Definition summary_string : dict :=
  [(key "personal", ada);
   (key "summary", text "Analyst. Wrote the first program.")].

Definition summary_mapping : dict :=
  [(key "personal", ada); (key "summary", YDict [(key "text", text "Analyst.")])].

(** A phone number written without quotes. *)
Definition numeric_phone : dict :=
  [(key "personal",
    YDict [(key "name", text "Ada Lovelace"); (key "phone", YInt 5551234)])].

(** A top-level sequence instead of a mapping. *)
Definition sequence_document : yaml := YList [text "name"; text "Ada Lovelace"].

(** [personal] given as a sentence. *)
Definition sentence_personal : dict :=
  [(key "personal", text "my name is Ada Lovelace")].

(** [config] given as a list. *)
Definition list_config : dict :=
  [(key "personal", ada); (key "config", YList [text "footer"])].

(** The generator [__init__] builds for the document [d] resolved to the
    configuration [c]. *)
Definition generator_of (d : dict) (c : Config) : ResumeGenerator := {|
  yaml_file := u "resume.yaml";
  output_dir := u "output";
  data := d;
  config := c;
  styles := _create_styles c
|}.

(** [default_config] with another [section_order]. *)
Definition with_section_order (order : yaml) : Config := {|
  font_name := font_name default_config;
  font_name_bold := font_name_bold default_config;
  font_name_italic := font_name_italic default_config;
  name_size := name_size default_config;
  section_header_size := section_header_size default_config;
  title_size := title_size default_config;
  body_size := body_size default_config;
  margin := margin default_config;
  section_spacing := section_spacing default_config;
  item_spacing := item_spacing default_config;
  section_order := order;
  footer := footer default_config
|}.

(** A highlight that is empty or consists of whitespace only. *)
Definition blank (h : str) : bool := forallb is_space h.

(** The twelve options of the configuration, where each is read from
    ([fonts.<key>] or [config.<key>]) and its documented default. *)
Inductive config_option : Type :=
| OFontName | OFontNameBold | OFontNameItalic | ONameSize | OSectionHeaderSize
| OTitleSize | OBodySize | OMargin | OSectionSpacing | OItemSpacing
| OSectionOrder | OFooter.

Definition option_value (c : Config) (o : config_option) : yaml :=
  match o with
  | OFontName => font_name c
  | OFontNameBold => font_name_bold c
  | OFontNameItalic => font_name_italic c
  | ONameSize => name_size c
  | OSectionHeaderSize => section_header_size c
  | OTitleSize => title_size c
  | OBodySize => body_size c
  | OMargin => margin c
  | OSectionSpacing => section_spacing c
  | OItemSpacing => item_spacing c
  | OSectionOrder => section_order c
  | OFooter => footer c
  end.

Definition option_supplied (config fonts : dict) (o : config_option) : option yaml :=
  match o with
  | OFontName => lookup fonts (u "name")
  | OFontNameBold => lookup fonts (u "name_bold")
  | OFontNameItalic => lookup fonts (u "name_italic")
  | ONameSize => lookup fonts (u "name_size")
  | OSectionHeaderSize => lookup fonts (u "section_header_size")
  | OTitleSize => lookup fonts (u "title_size")
  | OBodySize => lookup fonts (u "body_size")
  | OMargin => lookup config (u "margin")
  | OSectionSpacing => lookup config (u "section_spacing")
  | OItemSpacing => lookup config (u "item_spacing")
  | OSectionOrder => lookup config (u "section_order")
  | OFooter => lookup config (u "footer")
  end.

(** The documented defaults. *)
Definition option_default (o : config_option) : yaml :=
  match o with
  | OFontName => YStr (u "Helvetica")
  | OFontNameBold => YStr (u "Helvetica-Bold")
  | OFontNameItalic => YStr (u "Helvetica-Oblique")
  | ONameSize => YInt 20
  | OSectionHeaderSize => YInt 12
  | OTitleSize => YInt 10
  | OBodySize => YInt 9
  | OMargin => YFloat 0.6
  | OSectionSpacing => YFloat 0.08
  | OItemSpacing => YFloat 0.06
  | OSectionOrder =>
      YList [YStr (u "summary"); YStr (u "experience"); YStr (u "education");
             YStr (u "skills"); YStr (u "projects"); YStr (u "certifications");
             YStr (u "awards"); YStr (u "publications"); YStr (u "languages");
             YStr (u "volunteer")]
  | OFooter => YBool false
  end.

(** A sub-tree that is absent, or present as the mapping [d]. *)
Definition absent_or_mapping (found : option yaml) (d : dict) : Prop :=
  (found = None /\ d = []) \/ found = Some (YDict d).

(** The texts of the bullet paragraphs of a story, in order. *)
Fixpoint bullet_lines (blocks : list flowable) : list str :=
  match blocks with
  | [] => []
  | Paragraph (YStr (c :: line)) _ :: rest =>
      if N.eqb c bullet then (c :: line) :: bullet_lines rest
      else bullet_lines rest
  | _ :: rest => bullet_lines rest
  end.

(** The section titles of a story, in order: the texts of its
    [SectionHeader] paragraphs. *)
Fixpoint section_titles (blocks : list flowable) : list str :=
  match blocks with
  | [] => []
  | Paragraph (YStr title) style :: rest =>
      if String.eqb (style_name style) "SectionHeader"
      then title :: section_titles rest
      else section_titles rest
  | _ :: rest => section_titles rest
  end.

(* ===================================================================== *)
(** ** Vocabulary of the statements *)
(* ===================================================================== *)

(** [a] followed by what [b] holds. *)
Definition join_state (a b : state) : state :=
  mkState (story a ++ story b) (stdout a ++ stdout b).

(** The outcome [out] of a computation started in a fresh state, replayed
    after [st]. *)
Definition shift {A} (st : state) (out : state * result A) : state * result A :=
  (join_state st (fst out), snd out).

(** [m] neither reads nor rewrites what is already in the state: started
    anywhere, it ends the same way and leaves behind the old state followed
    by what it produces when started fresh. *)
Definition uniform {A} (m : M A) : Prop :=
  forall st, m st = shift st (m initial).

(** [m] is uniform and prints nothing. *)
Definition blocks_only {A} (m : M A) : Prop :=
  uniform m /\ forall st, stdout (fst (m st)) = stdout st.

(** The blocks [m] produces when started fresh. *)
Definition blocks_of {A} (m : M A) : list flowable := story (fst (m initial)).

(** The lines [m] prints when started fresh. *)
Definition lines_of {A} (m : M A) : list str := stdout (fst (m initial)).

(** [m] ends normally when started fresh. *)
Definition succeeds {A} (m : M A) : Prop := exists a, snd (m initial) = Ok a.

(** What can be looked up in [section_builders]: anything but a list, a
    mapping or a set, which cannot be hashed. *)
Definition hashable (v : yaml) : bool :=
  match v with
  | YList _ | YDict _ | YSet _ => false
  | _ => true
  end.


(** [w] with another render delegate. *)
Definition with_delegate (delegate : str -> float -> list flowable -> build_outcome)
    (w : World) : World := {|
  argv := argv w;
  files := files w;
  hash_order := hash_order w;
  hash_order_permutes := hash_order_permutes w;
  doc_build := delegate
|}.

(** A render delegate that stops before it has taken any block off the
    list. *)
Definition stops_at_once : str -> float -> list flowable -> build_outcome :=
  fun _ _ blocks => BuildFailed blocks [].

(** The empty values of a section: an empty list, an empty mapping, null. *)
Definition empty_section (v : yaml) : Prop :=
  v = YList [] \/ v = YDict [] \/ v = YNull.

Section Vocabulary.
Context {RT : Runtime}.

(** The renderer an entry of [section_order] names, if it names one. *)
Definition selected (section_name : yaml) : option (ResumeGenerator -> M unit) :=
  match section_name with
  | YStr name => builder_named section_builders name
  | _ => None
  end.

(** The renderers a [section_order] list selects, in the order of the list. *)
Fixpoint selected_builders (order : list yaml) : list (ResumeGenerator -> M unit) :=
  match order with
  | [] => []
  | section_name :: rest =>
      match selected section_name with
      | Some build => build :: selected_builders rest
      | None => selected_builders rest
      end
  end.

(** The entries of a [section_order] list that name no renderer. *)
Definition unknown_sections (order : list yaml) : list yaml :=
  filter (fun section_name =>
            match selected section_name with Some _ => false | None => true end)
         order.

(** The warning printed for an unrecognised entry. *)
Definition warning_for (section_name : yaml) : str :=
  u "Warning: Unknown section '" ++ py_str section_name
    ++ u "' in section_order config".

(** The operations of [generate] that write to [self.story]. *)
Definition story_operations (self : ResumeGenerator) : list (M unit) :=
  _build_header self :: build_footer self
    :: map (fun entry => snd entry self) section_builders.

(** [generate] up to the hand-over: the path of the artifact, the margin in
    points and, in the state, the assembled story. *)
Definition assemble (self : ResumeGenerator) : M (str * float) :=
  personal <- as_dict (get (data self) (u "personal") (YDict [])) ;;
  name <- py_replace_spaces (get personal (u "name") (YStr (u "resume"))) ;;
  m <- times_inch (margin (config self)) ;;
  build_story self ;;
  ret (path_join (output_dir self) (name ++ u "_resume.pdf"), m).

(** A run up to the hand-over. *)
Definition before_build (w : World) (yaml_file : str) : state * result (str * float) :=
  (print (u "Loading resume data from: " ++ yaml_file) ;;
   generator <- __init__ w yaml_file (u "output") ;;
   print (u "Generating PDF resume...") ;;
   assemble generator) initial.

(** The story a run hands to its render delegate.  A delegate that lays the
    blocks out takes them off the list, so the story is read off the run
    whose delegate stops at once; the delegate is the last thing a run
    calls, and what it is handed does not depend on it (see
    [run_ends_as_the_delegate_says]).  For a run that ends before the
    hand-over this is the story built until then. *)
Definition handed_over (w : World) : list flowable :=
  story (fst (run (with_delegate stops_at_once w))).

(** What is left to do once the delegate has answered [outcome] to the
    story in [s]. *)
Definition after_build (output_file : str) (outcome : build_outcome) (s : state)
    : state * result unit :=
  match outcome with
  | Built =>
      (mkState []
         (stdout s
            ++ [check_mark :: u " Resume generated successfully: " ++ output_file;
                10%N :: repeat 61%N 60;
                u "Resume successfully created!";
                u "Output: " ++ output_file;
                repeat 61%N 60]),
       Ok tt)
  | BuildFailed remaining e =>
      (mkState remaining (stdout s ++ [u "Error generating PDF: " ++ e]), SysExit 1)
  end.


(** The run announces its input, prints [line] and nothing more, builds no
    block and ends in [sys.exit(1)]. *)
Definition fails_with (w : World) (yaml_file line : str) : Prop :=
  run w = (mkState [] [u "Loading resume data from: " ++ yaml_file; line], SysExit 1)
  /\ exit_status (snd (run w)) = 1.

End Vocabulary.

(** [m] never ends normally, in whatever state it is started. *)
Definition never_succeeds {A} (m : M A) : Prop :=
  forall st a, snd (m st) <> Ok a.

(** The values [v * inch] is defined on: [int], [float] and [bool]. *)
Definition numeric (v : yaml) : bool :=
  match v with
  | YInt _ | YFloat _ | YBool _ => true
  | _ => false
  end.

Definition is_string (v : yaml) : bool :=
  match v with
  | YStr _ => true
  | _ => false
  end.

(** [c] with another [fonts.name]. *)
Definition with_font_name (v : yaml) (c : Config) : Config := {|
  font_name := v;
  font_name_bold := font_name_bold c;
  font_name_italic := font_name_italic c;
  name_size := name_size c;
  section_header_size := section_header_size c;
  title_size := title_size c;
  body_size := body_size c;
  margin := margin c;
  section_spacing := section_spacing c;
  item_spacing := item_spacing c;
  section_order := section_order c;
  footer := footer c
|}.

(** [self] with another configuration dictionary (the style sheet, built
    once by [__init__], is kept). *)
Definition with_config (c : Config) (self : ResumeGenerator) : ResumeGenerator := {|
  yaml_file := yaml_file self;
  output_dir := output_dir self;
  data := data self;
  config := c;
  styles := styles self
|}.

(** The two blocks of a section header: the title and the rule. *)
Definition section_header_blocks (self : ResumeGenerator) (title : str)
    : list flowable :=
  [Paragraph (YStr title) (styles self SectionHeader);
   HRFlowable (u "100%") 1 (u "#000000") 4].

(** The blocks of the footer: a spacer and the attribution line. *)
Definition footer_blocks (self : ResumeGenerator) : list flowable :=
  if truthy (footer (config self))
  then [Spacer 1 (0.2 * inch)%float;
        Paragraph (YStr (u "Generated by Resume Generator | George Yuanji Wang"))
                  (styles self Footer)]
  else [].

(** A mapping whose keys are the strings and whose values are the values of
    [entries]. *)
Definition string_keyed (entries : list (str * yaml)) : dict :=
  map (fun kv : str * yaml => (YStr (fst kv), snd kv)) entries.

(** A mapping from each category to the list of its skills. *)
Definition categorized (categories : list (yaml * list str)) : dict :=
  map (fun cs : yaml * list str => (fst cs, YList (map YStr (snd cs)))) categories.

(* ===================================================================== *)
(** ** The monad *)
(* ===================================================================== *)

Lemma join_state_initial_l (s : state) : join_state initial s = s.
Proof. destruct s; reflexivity. Qed.

Lemma join_state_initial_r (s : state) : join_state s initial = s.
Proof. destruct s; unfold join_state; simpl; now rewrite !app_nil_r. Qed.

Lemma join_state_assoc (a b c : state) :
  join_state (join_state a b) c = join_state a (join_state b c).
Proof. unfold join_state; simpl; now rewrite !app_assoc. Qed.

Lemma shift_shift {A} (a b : state) (out : state * result A) :
  shift (join_state a b) out = shift a (shift b out).
Proof. unfold shift; simpl; now rewrite join_state_assoc. Qed.

Lemma uniform_ret {A} (a : A) : uniform (ret a).
Proof. intros st; unfold ret, shift; simpl; now rewrite join_state_initial_r. Qed.

Lemma uniform_raise {A} (e : exn) : uniform (@raise A e).
Proof. intros st; unfold raise, shift; simpl; now rewrite join_state_initial_r. Qed.

Lemma uniform_sys_exit {A} (c : Z) : uniform (@sys_exit A c).
Proof. intros st; unfold sys_exit, shift; simpl; now rewrite join_state_initial_r. Qed.

Lemma uniform_append (b : flowable) : uniform (append b).
Proof. intros st; unfold append, shift, join_state; simpl; now rewrite app_nil_r. Qed.

Lemma uniform_print (line : str) : uniform (print line).
Proof. intros st; unfold print, shift, join_state; simpl; now rewrite app_nil_r. Qed.

Lemma uniform_bind {A B} (m : M A) (k : A -> M B) :
  uniform m -> (forall a, uniform (k a)) -> uniform (bind m k).
Proof.
  intros Hm Hk st. unfold bind. rewrite (Hm st).
  destruct (m initial) as [s1 [a | e | c]]; unfold shift; simpl; try reflexivity.
  rewrite (Hk a (join_state st s1)), (Hk a s1). now rewrite shift_shift.
Qed.

Lemma uniform_when (c : bool) (body : M unit) : uniform body -> uniform (when c body).
Proof. destruct c; simpl; auto using uniform_ret. Qed.

Lemma uniform_for_each {A} (xs : list A) (body : A -> M unit) :
  (forall x, uniform (body x)) -> uniform (for_each xs body).
Proof.
  intros H; induction xs as [| x xs IH]; simpl.
  - apply uniform_ret.
  - apply uniform_bind; auto.
Qed.

Lemma quiet_of_uniform {A} (m : M A) :
  uniform m -> lines_of m = [] -> forall st, stdout (fst (m st)) = stdout st.
Proof.
  intros Hu Hq st. rewrite (Hu st). unfold shift, lines_of in *; simpl.
  rewrite Hq. apply app_nil_r.
Qed.

Lemma blocks_only_intro {A} (m : M A) :
  uniform m -> lines_of m = [] -> blocks_only m.
Proof. intros Hu Hq; split; [exact Hu | now apply quiet_of_uniform]. Qed.

Lemma blocks_only_ret {A} (a : A) : blocks_only (ret a).
Proof. apply blocks_only_intro; [apply uniform_ret | reflexivity]. Qed.

Lemma blocks_only_raise {A} (e : exn) : blocks_only (@raise A e).
Proof. apply blocks_only_intro; [apply uniform_raise | reflexivity]. Qed.

Lemma blocks_only_append (b : flowable) : blocks_only (append b).
Proof. apply blocks_only_intro; [apply uniform_append | reflexivity]. Qed.

Lemma blocks_only_bind {A B} (m : M A) (k : A -> M B) :
  blocks_only m -> (forall a, blocks_only (k a)) -> blocks_only (bind m k).
Proof.
  intros [Hm Qm] Hk. split.
  - apply uniform_bind; [exact Hm | intros a; apply Hk].
  - intros st. unfold bind. specialize (Qm st).
    destruct (m st) as [s1 [a | e | c]]; simpl in *; try assumption.
    destruct (Hk a) as [_ Qk]. now rewrite Qk.
Qed.

Lemma blocks_only_when (c : bool) (body : M unit) :
  blocks_only body -> blocks_only (when c body).
Proof. destruct c; simpl; auto using blocks_only_ret. Qed.

Lemma blocks_only_for_each {A} (xs : list A) (body : A -> M unit) :
  (forall x, blocks_only (body x)) -> blocks_only (for_each xs body).
Proof.
  intros H; induction xs as [| x xs IH]; simpl.
  - apply blocks_only_ret.
  - apply blocks_only_bind; auto.
Qed.

Lemma blocks_only_if_key (d : dict) (k : str) (body : yaml -> M unit) :
  (forall v, blocks_only (body v)) -> blocks_only (if_key d k body).
Proof. intros H; unfold if_key; destruct (lookup d k); auto using blocks_only_ret. Qed.

Create HintDb blocks.

(** One step of a proof that a computation only appends blocks: split binds,
    loops and conditionals, and case on what the code inspects. *)
Ltac blocks_step :=
  match goal with
  | |- blocks_only (ret _) => apply blocks_only_ret
  | |- blocks_only (raise _) => apply blocks_only_raise
  | |- blocks_only (append _) => apply blocks_only_append
  | |- blocks_only (bind _ _) => apply blocks_only_bind; [| intros]
  | |- blocks_only (when _ _) => apply blocks_only_when
  | |- blocks_only (for_each _ _) => apply blocks_only_for_each; intros
  | |- blocks_only (if_key _ _ _) => apply blocks_only_if_key; intros
  | |- blocks_only (let _ := _ in _) => cbv zeta
  | |- blocks_only (match ?x with _ => _ end) => destruct x
  | |- blocks_only _ => solve [auto with blocks]
  end.

Ltac blocks_auto := repeat blocks_step.

Section Properties.
Context {RT : Runtime}.

(* ===================================================================== *)
(** ** The renderers only append blocks *)
(* ===================================================================== *)

Lemma blocks_only_as_dict (v : yaml) : blocks_only (as_dict v).
Proof. unfold as_dict; blocks_auto. Qed.

Lemma blocks_only_py_iter (v : yaml) : blocks_only (py_iter v).
Proof. unfold py_iter; blocks_auto. Qed.

Lemma blocks_only_py_join (sep : str) (parts : list yaml) :
  blocks_only (py_join sep parts).
Proof. unfold py_join; blocks_auto. Qed.

Lemma blocks_only_py_strip (v : yaml) : blocks_only (py_strip v).
Proof. unfold py_strip; blocks_auto. Qed.

Lemma blocks_only_py_iadd (v : yaml) (text : str) : blocks_only (py_iadd v text).
Proof. unfold py_iadd; blocks_auto. Qed.

Lemma blocks_only_times_inch (v : yaml) : blocks_only (times_inch v).
Proof. unfold times_inch; blocks_auto. Qed.

Lemma blocks_only_paragraph (text : yaml) (style : ParagraphStyle) :
  blocks_only (paragraph text style).
Proof. unfold paragraph; blocks_auto. Qed.

Hint Resolve blocks_only_as_dict blocks_only_py_iter blocks_only_py_join
  blocks_only_py_strip blocks_only_py_iadd blocks_only_times_inch
  blocks_only_paragraph : blocks.

Lemma blocks_only_append_paragraph (text : yaml) (style : ParagraphStyle) :
  blocks_only (append_paragraph text style).
Proof. unfold append_paragraph; blocks_auto. Qed.

Lemma blocks_only_append_row (self : ResumeGenerator) (left right : yaml) :
  blocks_only (append_row self left right).
Proof. unfold append_row; blocks_auto. Qed.

Hint Resolve blocks_only_append_paragraph blocks_only_append_row : blocks.

Lemma blocks_only_append_spacer (v : yaml) : blocks_only (append_spacer v).
Proof. unfold append_spacer; blocks_auto. Qed.

Lemma blocks_only_append_fixed_spacer (c : float) :
  blocks_only (append_fixed_spacer c).
Proof. unfold append_fixed_spacer; blocks_auto. Qed.

Lemma blocks_only_add_section_header (self : ResumeGenerator) (title : str) :
  blocks_only (_add_section_header self title).
Proof. unfold _add_section_header; blocks_auto. Qed.

Hint Resolve blocks_only_append_spacer blocks_only_append_fixed_spacer
  blocks_only_add_section_header : blocks.

Lemma blocks_only_bullets (self : ResumeGenerator) (highlights : yaml) :
  blocks_only (bullets self highlights).
Proof. unfold bullets; blocks_auto. Qed.

Lemma blocks_only_link_parts (entries : dict) : blocks_only (link_parts entries).
Proof.
  induction entries as [| [key value] rest IH]; simpl; blocks_auto; exact IH.
Qed.

Lemma blocks_only_nonblank_bullets (self : ResumeGenerator) (highlights : yaml) :
  blocks_only (nonblank_bullets self highlights).
Proof. unfold nonblank_bullets; blocks_auto. Qed.

Hint Resolve blocks_only_bullets blocks_only_nonblank_bullets
  blocks_only_link_parts : blocks.

Lemma blocks_only_build_header (self : ResumeGenerator) :
  blocks_only (_build_header self).
Proof. unfold _build_header; blocks_auto. Qed.

Lemma blocks_only_build_summary (self : ResumeGenerator) :
  blocks_only (_build_summary self).
Proof. unfold _build_summary; blocks_auto. Qed.

Lemma blocks_only_build_experience (self : ResumeGenerator) :
  blocks_only (_build_experience self).
Proof. unfold _build_experience; blocks_auto. Qed.

Lemma blocks_only_build_education (self : ResumeGenerator) :
  blocks_only (_build_education self).
Proof. unfold _build_education; blocks_auto. Qed.

Lemma blocks_only_build_skills (self : ResumeGenerator) :
  blocks_only (_build_skills self).
Proof. unfold _build_skills; blocks_auto. Qed.

Lemma blocks_only_build_projects (self : ResumeGenerator) :
  blocks_only (_build_projects self).
Proof. unfold _build_projects; blocks_auto. Qed.

Lemma blocks_only_build_certifications (self : ResumeGenerator) :
  blocks_only (_build_certifications self).
Proof. unfold _build_certifications; blocks_auto. Qed.

Lemma blocks_only_build_awards (self : ResumeGenerator) :
  blocks_only (_build_awards self).
Proof. unfold _build_awards; blocks_auto. Qed.

Lemma blocks_only_build_publications (self : ResumeGenerator) :
  blocks_only (_build_publications self).
Proof. unfold _build_publications; blocks_auto. Qed.

Lemma blocks_only_build_languages (self : ResumeGenerator) :
  blocks_only (_build_languages self).
Proof. unfold _build_languages; blocks_auto. Qed.

Lemma blocks_only_build_volunteer (self : ResumeGenerator) :
  blocks_only (_build_volunteer self).
Proof. unfold _build_volunteer; blocks_auto. Qed.


Lemma blocks_only_build_footer (self : ResumeGenerator) : blocks_only (build_footer self).
Proof. unfold build_footer; blocks_auto. Qed.

Lemma blocks_only_section_builders (self : ResumeGenerator)
    (name : str) (build : ResumeGenerator -> M unit) :
  In (name, build) section_builders -> blocks_only (build self).
Proof.
  unfold section_builders; simpl; intros H.
  repeat (destruct H as [H | H]; [inversion H; subst; clear H |]);
    [ apply blocks_only_build_summary | apply blocks_only_build_experience
    | apply blocks_only_build_education | apply blocks_only_build_skills
    | apply blocks_only_build_projects | apply blocks_only_build_certifications
    | apply blocks_only_build_awards | apply blocks_only_build_publications
    | apply blocks_only_build_languages | apply blocks_only_build_volunteer
    | contradiction ].
Qed.

Lemma builder_named_In (builders : list (str * (ResumeGenerator -> M unit)))
    (name : str) (build : ResumeGenerator -> M unit) :
  builder_named builders name = Some build -> exists k, In (k, build) builders.
Proof.
  induction builders as [| [k b] rest IH]; simpl; [discriminate |].
  destruct (str_eqb name k).
  - intros H; inversion H; subst. exists k; now left.
  - intros H; destruct (IH H) as [k' Hk']. exists k'; now right.
Qed.

Lemma blocks_only_selected (self : ResumeGenerator) (section_name : yaml)
    (build : ResumeGenerator -> M unit) :
  selected section_name = Some build -> blocks_only (build self).
Proof.
  destruct section_name; unfold selected; try discriminate.
  intros H. destruct (builder_named_In _ _ H) as [k Hk].
  eapply blocks_only_section_builders; eassumption.
Qed.

Lemma build_section_selected (self : ResumeGenerator) (section_name : yaml)
    (build : ResumeGenerator -> M unit) (st : state) :
  selected section_name = Some build ->
  build_section self section_name st = build self st.
Proof.
  destruct section_name; unfold selected; try discriminate.
  intros H. unfold build_section, find_builder, bind, ret. now rewrite H.
Qed.

Lemma build_section_unknown (self : ResumeGenerator) (section_name : yaml)
    (st : state) :
  hashable section_name = true -> selected section_name = None ->
  build_section self section_name st
  = (mkState (story st) (stdout st ++ [warning_for section_name]), Ok tt).
Proof.
  destruct section_name; unfold selected, hashable; try discriminate; intros _ H;
    unfold build_section, find_builder, bind, ret; try rewrite H; reflexivity.
Qed.

Lemma build_section_unhashable (self : ResumeGenerator) (section_name : yaml)
    (st : state) :
  hashable section_name = false ->
  build_section self section_name st = (st, Raise TypeError).
Proof. destruct section_name; unfold hashable; try discriminate; reflexivity. Qed.

Lemma uniform_build_section (self : ResumeGenerator) (section_name : yaml) :
  uniform (build_section self section_name).
Proof.
  intros st.
  destruct (selected section_name) as [build |] eqn:Hsel.
  - rewrite !(build_section_selected self _ _ Hsel).
    now apply (blocks_only_selected self _ Hsel).
  - destruct (hashable section_name) eqn:Hh.
    + rewrite !(build_section_unknown self _ _ Hh Hsel).
      unfold shift, join_state; simpl. now rewrite app_nil_r.
    + rewrite !(build_section_unhashable self _ _ Hh).
      unfold shift; simpl. now rewrite join_state_initial_r.
Qed.

Lemma uniform_of_blocks_only {A} (m : M A) : blocks_only m -> uniform m.
Proof. now intros [H _]. Qed.

Lemma uniform_build_story (self : ResumeGenerator) : uniform (build_story self).
Proof.
  unfold build_story.
  apply uniform_bind; [apply uniform_of_blocks_only, blocks_only_build_header |].
  intros _. apply uniform_bind; [apply uniform_of_blocks_only, blocks_only_py_iter |].
  intros order. apply uniform_bind.
  - apply uniform_for_each; intros x; apply uniform_build_section.
  - intros _. apply uniform_of_blocks_only, blocks_only_build_footer.
Qed.

Lemma appends_of_uniform {A} (m : M A) :
  uniform m -> forall st, story (fst (m st)) = story st ++ blocks_of m.
Proof. intros H st. now rewrite (H st). Qed.

(** C9.  The story is append-only: the header, every section renderer, the
    footer step, [_add_section_header], the body of the loop over
    [section_order] and the whole assembly leave the blocks that were already
    in [self.story] as an unchanged prefix and only add blocks after them;
    what they add does not depend on what was there. *)
Theorem story_is_append_only (self : ResumeGenerator) (op : M unit) :
  In op (story_operations self)
  \/ (exists title, op = _add_section_header self title)
  \/ (exists section_name, op = build_section self section_name)
  \/ op = build_story self ->
  exists blocks, forall st, story (fst (op st)) = story st ++ blocks.
Proof.
  intros H. exists (blocks_of op). apply appends_of_uniform.
  destruct H as [H | [[title ->] | [[section_name ->] | ->]]].
  - unfold story_operations in H. destruct H as [<- | [<- | H]].
    + apply uniform_of_blocks_only, blocks_only_build_header.
    + apply uniform_of_blocks_only, blocks_only_build_footer.
    + apply in_map_iff in H. destruct H as [[name build] [<- H]].
      apply uniform_of_blocks_only. simpl.
      eapply blocks_only_section_builders; eassumption.
  - apply uniform_of_blocks_only, blocks_only_add_section_header.
  - apply uniform_build_section.
  - apply uniform_build_story.
Qed.


(* ===================================================================== *)
(** ** Sequencing uniform computations *)
(* ===================================================================== *)

Lemma run_of_uniform {A} (m : M A) (st : state) :
  uniform m ->
  m st = (mkState (story st ++ blocks_of m) (stdout st ++ lines_of m),
          snd (m initial)).
Proof. intros H. now rewrite (H st). Qed.

Lemma succeeds_unit (m : M unit) : succeeds m <-> snd (m initial) = Ok tt.
Proof.
  split; [intros [[] H]; exact H | intros H; now exists tt].
Qed.

Lemma seq_fresh (m k : M unit) :
  uniform k -> succeeds m ->
  blocks_of (m ;; k) = blocks_of m ++ blocks_of k
  /\ lines_of (m ;; k) = lines_of m ++ lines_of k
  /\ snd ((m ;; k) initial) = snd (k initial).
Proof.
  intros Hk Hm. apply succeeds_unit in Hm.
  unfold blocks_of, lines_of, bind in *.
  destruct (m initial) as [s1 r]; simpl in Hm; subst r.
  rewrite (Hk s1). unfold shift; simpl. auto.
Qed.

Lemma succeeds_seq (m k : M unit) :
  uniform k -> (succeeds (m ;; k) <-> succeeds m /\ succeeds k).
Proof.
  intros Hk. split.
  - intros H.
    assert (Hm : succeeds m).
    { apply succeeds_unit. apply succeeds_unit in H. unfold bind in H.
      destruct (m initial) as [s1 [[] | e | c]]; simpl in *;
        [reflexivity | discriminate | discriminate]. }
    split; [exact Hm |].
    destruct (seq_fresh Hk Hm) as (_ & _ & E).
    apply succeeds_unit. rewrite <- E. now apply succeeds_unit.
  - intros [Hm Hk']. destruct (seq_fresh Hk Hm) as (_ & _ & E).
    apply succeeds_unit. rewrite E. now apply succeeds_unit.
Qed.

(* ===================================================================== *)
(** ** The loop over [section_order] *)
(* ===================================================================== *)

Lemma build_section_fresh (self : ResumeGenerator) (section_name : yaml) :
  hashable section_name = true ->
  match selected section_name with
  | Some build =>
      blocks_of (build_section self section_name) = blocks_of (build self)
      /\ lines_of (build_section self section_name) = []
      /\ (succeeds (build_section self section_name) <-> succeeds (build self))
  | None =>
      blocks_of (build_section self section_name) = []
      /\ lines_of (build_section self section_name) = [warning_for section_name]
      /\ succeeds (build_section self section_name)
  end.
Proof.
  intros Hh. destruct (selected section_name) as [build |] eqn:Hsel.
  - unfold blocks_of, lines_of, succeeds.
    rewrite (build_section_selected self _ _ Hsel).
    destruct (blocks_only_selected self _ Hsel) as [_ Hq].
    split; [reflexivity | split; [apply (Hq initial) | tauto]].
  - unfold blocks_of, lines_of, succeeds.
    rewrite (build_section_unknown self _ _ Hh Hsel). simpl.
    repeat split; now exists tt.
Qed.

Lemma section_loop_fresh (self : ResumeGenerator) (order : list yaml) :
  Forall (fun section_name => hashable section_name = true) order ->
  let loop := for_each order (build_section self) in
  (succeeds loop
   <-> Forall (fun build => succeeds (build self)) (selected_builders order))
  /\ (succeeds loop ->
      blocks_of loop
      = concat (map (fun build => blocks_of (build self)) (selected_builders order))
      /\ lines_of loop = map warning_for (unknown_sections order)).
Proof.
  induction 1 as [| x rest Hx Hrest IH]; simpl.
  - split; [split; [constructor | intros _; now exists tt] | intros _; split; reflexivity].
  - destruct IH as [IHs IHb].
    assert (Hk : uniform (for_each rest (build_section self)))
      by (apply uniform_for_each; intros; apply uniform_build_section).
    pose proof (build_section_fresh self x Hx) as Hfresh.
    rewrite (succeeds_seq _ Hk).
    unfold unknown_sections; simpl.
    destruct (selected x) as [build |] eqn:Hsel; simpl.
    + destruct Hfresh as (Hb & Hl & Hs). split.
      * rewrite Hs, IHs. split; [intros [? ?]; now constructor | now inversion 1].
      * intros [Hm Hr]. destruct (seq_fresh Hk Hm) as (Eb & El & _).
        destruct (IHb Hr) as [IHb1 IHb2].
        rewrite Eb, El, Hb, Hl, IHb1, IHb2. split; reflexivity.
    + destruct Hfresh as (Hb & Hl & Hs). split.
      * rewrite IHs. tauto.
      * intros [Hm Hr]. destruct (seq_fresh Hk Hm) as (Eb & El & _).
        destruct (IHb Hr) as [IHb1 IHb2].
        rewrite Eb, El, Hb, Hl, IHb1, IHb2. split; reflexivity.
Qed.


(* ===================================================================== *)
(** ** The document is read through its keys only *)
(* ===================================================================== *)

Lemma str_eqb_eq (a b : str) : str_eqb a b = true -> a = b.
Proof.
  revert b; induction a as [| x a IH]; intros [| y b]; simpl; try discriminate; auto.
  intros H. apply andb_prop in H. destruct H as [Hxy Hab].
  apply N.eqb_eq in Hxy. subst. f_equal. now apply IH.
Qed.

Lemma key_is_true (k : str) (key : yaml) : key_is k key = true -> key = YStr k.
Proof.
  destruct key; simpl; try discriminate. intros H. f_equal. now apply str_eqb_eq.
Qed.

(** Reordering the entries of a mapping whose keys are distinct changes no
    lookup. *)
Lemma lookup_permutation (d d' : dict) :
  Permutation d d' -> NoDup (map fst d) -> forall k, lookup d k = lookup d' k.
Proof.
  induction 1 as [| [key v] l l' Hp IH | [k1 v1] [k2 v2] l | l l' l'' H1 IH1 H2 IH2];
    intros Hnd k; simpl.
  - reflexivity.
  - inversion Hnd; subst. now rewrite IH.
  - destruct (key_is k k2) eqn:E2, (key_is k k1) eqn:E1; try reflexivity.
    apply key_is_true in E1, E2. subst.
    simpl in Hnd. inversion Hnd as [| ? ? Hnotin _]; subst.
    exfalso. apply Hnotin. now left.
  - rewrite IH1 by assumption. apply IH2.
    eapply Permutation_NoDup; [| exact Hnd]. now apply Permutation_map.
Qed.

Section SameLookups.
Variables self self' : ResumeGenerator.
Hypothesis same_lookups : forall k, lookup (data self') k = lookup (data self) k.
Hypothesis same_config : config self' = config self.
Hypothesis same_styles : styles self' = styles self.

Ltac same_lookups :=
  unfold _add_section_header, append_row, bullets, nonblank_bullets, get;
  rewrite ?same_lookups, ?same_config, ?same_styles; reflexivity.

Lemma same_build_header : _build_header self' = _build_header self.
Proof. unfold _build_header. same_lookups. Qed.

Lemma same_build_footer : build_footer self' = build_footer self.
Proof. unfold build_footer. same_lookups. Qed.

Lemma same_section_builders (name : str) (build : ResumeGenerator -> M unit) :
  In (name, build) section_builders -> build self' = build self.
Proof.
  unfold section_builders; simpl; intros H.
  repeat (destruct H as [H | H]; [inversion H; subst; clear H |]);
    [ unfold _build_summary | unfold _build_experience | unfold _build_education
    | unfold _build_skills | unfold _build_projects | unfold _build_certifications
    | unfold _build_awards | unfold _build_publications | unfold _build_languages
    | unfold _build_volunteer | contradiction ];
    same_lookups.
Qed.

Lemma same_build_section (section_name : yaml) (st : state) :
  build_section self' section_name st = build_section self section_name st.
Proof.
  destruct (selected section_name) as [build |] eqn:Hsel.
  - rewrite !(build_section_selected _ _ _ Hsel).
    destruct section_name; unfold selected in Hsel; try discriminate.
    destruct (builder_named_In _ _ Hsel) as [k Hk].
    now rewrite (same_section_builders Hk).
  - destruct (hashable section_name) eqn:Hh.
    + now rewrite !(build_section_unknown _ _ _ Hh Hsel).
    + now rewrite !(build_section_unhashable _ _ _ Hh).
Qed.

Lemma same_section_loop (order : list yaml) (st : state) :
  for_each order (build_section self') st = for_each order (build_section self) st.
Proof.
  revert st; induction order as [| x rest IH]; intros st; simpl; [reflexivity |].
  unfold bind. rewrite same_build_section.
  destruct (build_section self x st) as [s1 [[] | e | c]]; auto.
Qed.

Lemma same_build_story (st : state) : build_story self' st = build_story self st.
Proof.
  unfold build_story, bind. rewrite same_build_header, same_config.
  destruct (_build_header self st) as [s1 [[] | e | c]]; auto.
  destruct (py_iter (section_order (config self)) s1) as [s2 [order | e | c]]; auto.
  rewrite same_section_loop.
  destruct (for_each order (build_section self) s2) as [s3 [[] | e | c]]; auto.
  now rewrite same_build_footer.
Qed.

End SameLookups.

(** C5.  When [section_order] is a list of names, the assembled story is the
    header, then the blocks of the renderers the list names, in the order of
    the list, then the footer; nothing else of the document (in particular
    not the order of its keys) decides the order.  An entry that names no
    renderer prints its warning and does nothing else: the assembly succeeds
    exactly when the header, the named renderers and the footer step
    succeed. *)
Theorem section_order_decides_rendering_order
    (self : ResumeGenerator) (order : list yaml) :
  section_order (config self) = YList order ->
  Forall (fun section_name => hashable section_name = true) order ->
  (succeeds (build_story self)
   <-> succeeds (_build_header self)
       /\ Forall (fun build => succeeds (build self)) (selected_builders order)
       /\ succeeds (build_footer self))
  /\ (succeeds (build_story self) ->
      forall st,
        build_story self st
        = (mkState
             (story st
                ++ blocks_of (_build_header self)
                ++ concat (map (fun build => blocks_of (build self))
                               (selected_builders order))
                ++ blocks_of (build_footer self))
             (stdout st ++ map warning_for (unknown_sections order)),
           Ok tt))
  /\ (forall self',
        Permutation (data self) (data self') ->
        NoDup (map fst (data self)) ->
        config self' = config self ->
        styles self' = styles self ->
        forall st, build_story self' st = build_story self st).
Proof.
  intros Horder Hhash.
  set (loop := for_each order (build_section self)).
  assert (Hstory : forall st, build_story self st
                     = (_build_header self ;; loop ;; build_footer self) st).
  { intros st. unfold build_story. rewrite Horder. unfold bind at 2.
    unfold bind at 1 3. destruct (_build_header self st) as [s1 [[] | e | c]]; auto. }
  pose proof (uniform_of_blocks_only (blocks_only_build_footer self)) as Ufooter.
  assert (Uloop : uniform loop)
    by (apply uniform_for_each; intros; apply uniform_build_section).
  assert (Urest : uniform (loop ;; build_footer self))
    by (apply uniform_bind; auto).
  destruct (section_loop_fresh self Hhash) as [Hs Hb]. fold loop in Hs, Hb.
  assert (Hsucc : succeeds (build_story self)
                  <-> succeeds (_build_header self) /\ succeeds loop
                      /\ succeeds (build_footer self)).
  { unfold succeeds at 1. rewrite (Hstory initial).
    fold (succeeds (_build_header self ;; loop ;; build_footer self)).
    now rewrite (succeeds_seq _ Urest), (succeeds_seq _ Ufooter). }
  split; [now rewrite Hsucc, Hs | split].
  - intros H st. apply Hsucc in H. destruct H as (Hh & Hl & Hf).
    rewrite Hstory.
    assert (U : uniform (_build_header self ;; loop ;; build_footer self))
      by (apply uniform_bind;
          [apply uniform_of_blocks_only, blocks_only_build_header | auto]).
    rewrite (run_of_uniform st U).
    destruct (seq_fresh Urest Hh) as (B1 & L1 & R1).
    destruct (seq_fresh Ufooter Hl) as (B2 & L2 & R2).
    destruct (Hb Hl) as [B3 L3].
    destruct (blocks_only_build_header self) as [_ Qh].
    destruct (blocks_only_build_footer self) as [_ Qf].
    rewrite B1, L1, R1, B2, L2, R2, B3, L3.
    unfold lines_of. rewrite (Qh initial), (Qf initial). simpl.
    rewrite app_nil_r.
    apply succeeds_unit in Hf. rewrite Hf. reflexivity.
  - intros self' Hperm Hnd Hc Hst st.
    apply same_build_story; auto.
    intros k. symmetry. now apply lookup_permutation.
Qed.


(* ===================================================================== *)
(** ** Absent and empty sections *)
(* ===================================================================== *)

(** C4.  A section renderer whose key is absent from the document, or whose
    value is an empty list, an empty mapping or null, appends nothing: it
    returns normally and leaves the story (and the output) exactly as they
    were, so neither header nor rule nor spacer is emitted. *)
Theorem absent_or_empty_section_renders_nothing
    (self : ResumeGenerator) (name : str) (build : ResumeGenerator -> M unit) :
  In (name, build) section_builders ->
  lookup (data self) name = None
  \/ (exists v, lookup (data self) name = Some v /\ empty_section v) ->
  forall st, build self st = (st, Ok tt).
Proof.
  unfold section_builders; simpl; intros H Hempty st.
  repeat (destruct H as [H | H]; [inversion H; subst; clear H |]);
    [ unfold _build_summary | unfold _build_experience | unfold _build_education
    | unfold _build_skills | unfold _build_projects | unfold _build_certifications
    | unfold _build_awards | unfold _build_publications | unfold _build_languages
    | unfold _build_volunteer | contradiction ];
    (destruct Hempty as [-> | [v [-> [-> | [-> | ->]]]]]; reflexivity).
Qed.

(* ===================================================================== *)
(** ** Date ranges *)
(* ===================================================================== *)

Lemma format_date_range_start (start_date : yaml) :
  match start_date with YStr s => s | _ => py_str start_date end = py_str start_date.
Proof. destruct start_date; reflexivity. Qed.

(** On an ASCII end value the test of rule (2) compares the ASCII
    lower-casing with ["present"], whatever the runtime. *)
Lemma present_test_on_ascii (s : str) :
  Forall is_ascii s ->
  str_eqb (str_lower (py_str (YStr s))) (u "present")
  = str_eqb (map ascii_lower s) (u "present").
Proof. intros H. simpl. now rewrite (str_lower_ascii H). Qed.

(** C1.  The date-range formatter, by priority: (1) a start value that is
    absent (null) or falsy gives the empty string; otherwise, with the start
    and end values stringified, (2) a true [present] flag, or an end value
    that equals "present" once lower-cased, gives "<start> - Present";
    (3) failing that, a given (truthy) end value gives "<start> - <end>";
    (4) failing that, the result is "<start>". *)
Theorem format_date_range_rules (start_date end_date present : yaml) :
  (truthy start_date = false ->
   _format_date_range start_date end_date present = [])
  /\ (truthy start_date = true ->
      truthy present = true
      \/ (truthy end_date = true /\ str_lower (py_str end_date) = u "present") ->
      _format_date_range start_date end_date present
      = py_str start_date ++ u " - Present")
  /\ (truthy start_date = true ->
      truthy present = false ->
      str_lower (py_str end_date) <> u "present" ->
      truthy end_date = true ->
      _format_date_range start_date end_date present
      = py_str start_date ++ u " - " ++ py_str end_date)
  /\ (truthy start_date = true ->
      truthy present = false ->
      truthy end_date = false ->
      _format_date_range start_date end_date present = py_str start_date)
  /\ (forall s, py_str (YStr s) = s)
  /\ (forall z, py_str (YInt z) = str_of_Z z).
Proof.
  unfold _format_date_range.
  rewrite (format_date_range_start start_date), (format_date_range_start end_date).
  repeat split; try reflexivity.
  - now intros ->.
  - intros -> [-> | [-> E]]; simpl; [reflexivity |].
    rewrite E. simpl. now rewrite orb_true_r.
  - intros -> -> Hne ->. simpl.
    destruct (str_eqb (str_lower (py_str end_date)) (u "present")) eqn:E;
      [| reflexivity].
    apply str_eqb_eq in E. contradiction.
  - now intros -> -> ->.
Qed.

(* ===================================================================== *)
(** ** Loading *)
(* ===================================================================== *)

Lemma lookup_some_truthy (d : dict) (k : str) (v : yaml) :
  lookup d k = Some v -> truthy (YDict d) = true.
Proof. destruct d; simpl; [discriminate | reflexivity]. Qed.

(** C10.  The loader checks that the key ['name'] is present, not what it
    holds: a document whose ['personal'] mapping has the key ['name'] is
    returned as it is, whatever the value under that key (null and the empty
    string included); nothing is printed and nothing is raised. *)
Theorem loader_checks_only_that_name_is_present
    (w : World) (path : str) (d personal : dict) (v : yaml) (st : state) :
  open_and_load w path = Parsed (YDict d) ->
  lookup d (u "personal") = Some (YDict personal) ->
  lookup personal (u "name") = Some v ->
  _load_yaml w path st = (st, Ok d).
Proof.
  intros Hopen Hp Hn.
  unfold _load_yaml, try_except. rewrite Hopen.
  rewrite (lookup_some_truthy _ _ Hp).
  unfold py_in, py_getitem, has_key, bind, ret. cbn [negb].
  rewrite Hp. cbn [negb]. rewrite Hn. reflexivity.
Qed.


Lemma load_config_without_config (d : dict) (st : state) :
  lookup d (u "config") = None -> _load_config d st = (st, Ok default_config).
Proof. intros H. unfold _load_config, get. rewrite H. reflexivity. Qed.

(* ===================================================================== *)
(** ** The hand-over to the render delegate *)
(* ===================================================================== *)

Lemma generate_factors (w : World) (self : ResumeGenerator) (st : state) :
  generate w self st
  = match assemble self st with
    | (s, Ok (output_file, m)) => build_pdf w output_file m s
    | (s, Raise e) => (s, Raise e)
    | (s, SysExit c) => (s, SysExit c)
    end.
Proof.
  unfold generate, assemble, bind.
  destruct (as_dict _ st) as [s1 [personal | e | c]]; try reflexivity.
  destruct (py_replace_spaces _ s1) as [s2 [name | e | c]]; try reflexivity.
  destruct (times_inch _ s2) as [s3 [m | e | c]]; try reflexivity.
  destruct (build_story self s3) as [s4 [[] | e | c]]; reflexivity.
Qed.

(** A run is the run up to the hand-over, followed by what the answer of the
    render delegate to the assembled story decides. *)
Lemma run_factors (w : World) (yaml_file : str) (rest : list str) :
  argv w = yaml_file :: rest ->
  run w
  = match before_build w yaml_file with
    | (s, Ok (output_file, m)) =>
        after_build output_file (doc_build w output_file m (story s)) s
    | (s, Raise e) => (s, Raise e)
    | (s, SysExit c) => (s, SysExit c)
    end.
Proof.
  intros Hargv. unfold run, main, before_build. rewrite Hargv. unfold bind.
  destruct (print (u "Loading resume data from: " ++ yaml_file) initial)
    as [s0 [[] | e | c]]; try reflexivity.
  destruct (__init__ w yaml_file (u "output") s0) as [s1 [g | e | c]];
    try reflexivity.
  destruct (print (u "Generating PDF resume...") s1) as [s2 [[] | e | c]];
    try reflexivity.
  rewrite generate_factors.
  destruct (assemble g s2) as [s3 [[output_file m] | e | c]]; try reflexivity.
  unfold build_pdf, after_build.
  destruct (doc_build w output_file m (story s3)) as [| remaining e];
    unfold bind, print, ret, sys_exit; cbn [story stdout];
    rewrite <- ?app_assoc; reflexivity.
Qed.

Lemma before_build_ignores_delegate
    (delegate : str -> float -> list flowable -> build_outcome) (w : World)
    (yaml_file : str) :
  before_build (with_delegate delegate w) yaml_file = before_build w yaml_file.
Proof. reflexivity. Qed.

Lemma handed_over_is_the_assembled_story (w : World) (yaml_file : str)
    (rest : list str) :
  argv w = yaml_file :: rest ->
  handed_over w = story (fst (before_build w yaml_file)).
Proof.
  intros Hargv. unfold handed_over.
  rewrite (@run_factors (with_delegate stops_at_once w) yaml_file rest Hargv).
  rewrite before_build_ignores_delegate.
  destruct (before_build w yaml_file) as [s [[output_file m] | e | c]]; reflexivity.
Qed.


(* ===================================================================== *)
(** ** A document that holds a name and nothing else *)
(* ===================================================================== *)

(** For a document whose only content is [personal.name] with a string value
    that the layout library accepts as the text of a paragraph, the story
    handed to the render delegate is the name paragraph followed by the
    header spacer and nothing else (no section header, rule or section
    content); and when the render delegate succeeds the run ends normally,
    with exit status 0. *)
Theorem name_only_document_renders_header_only
    (w : World) (yaml_file : str) (rest : list str) (name : str) :
  argv w = yaml_file :: rest ->
  files w (path_text yaml_file) = Parsed (YDict (name_only (YStr name))) ->
  paragraph_error name (_create_styles default_config Name) = None ->
  handed_over w
  = [Paragraph (YStr name) (_create_styles default_config Name);
     Spacer 1 (0.08 * inch)%float]
  /\ ((forall path m blocks, doc_build w path m blocks = Built) ->
      snd (run w) = Ok tt /\ exit_status (snd (run w)) = 0).
Proof.
  intros Hargv Hfile Hname.
  assert (E : before_build w yaml_file
              = (mkState
                   [Paragraph (YStr name) (_create_styles default_config Name);
                    Spacer 1 (0.08 * inch)%float]
                   [u "Loading resume data from: " ++ yaml_file;
                    u "Generating PDF resume..."],
                 Ok (path_join (u "output")
                       (replace 32%N 95%N name ++ u "_resume.pdf"),
                     (0.6 * inch)%float))).
  { unfold before_build, __init__, _load_yaml, open_and_load, try_except, bind.
    rewrite Hfile.
    cbv -[path_text path_join paragraph_error replace PrimFloat.mul].
    cbv -[paragraph_error] in Hname. rewrite Hname. reflexivity. }
  split.
  - now rewrite (handed_over_is_the_assembled_story w Hargv), E.
  - intros Hbuild. rewrite (run_factors w Hargv), E, Hbuild. split; reflexivity.
Qed.

(* ===================================================================== *)
(** ** Two runs on the same input *)
(* ===================================================================== *)






(* ===================================================================== *)
(** ** Configuration *)
(* ===================================================================== *)

(** When the [config] sub-tree and its [fonts] sub-tree are each absent or a
    mapping, configuration resolution does not fail and
    leaves the state untouched, and every option is resolved by itself: an
    option that is specified takes the supplied value, an option that is not
    holds its documented default (Helvetica with its bold and oblique
    variants, sizes 20/12/10/9, margin 0.6, section spacing 0.08, item
    spacing 0.06, the ten-section order, footer off). *)
Theorem config_resolves_each_option (d config fonts : dict) (st : state) :
  absent_or_mapping (lookup d (u "config")) config ->
  absent_or_mapping (lookup config (u "fonts")) fonts ->
  exists c,
    _load_config d st = (st, Ok c)
    /\ forall o, option_value c o
                 = match option_supplied config fonts o with
                   | Some v => v
                   | None => option_default o
                   end.
Proof.
  intros Hc Hf. unfold _load_config, get.
  assert (Ec : match lookup d (u "config") with Some v => v | None => YDict [] end
               = YDict config)
    by (destruct Hc as [[-> ->] | ->]; reflexivity).
  assert (Ef : match lookup config (u "fonts") with Some v => v | None => YDict [] end
               = YDict fonts)
    by (destruct Hf as [[-> ->] | ->]; reflexivity).
  rewrite Ec. unfold as_dict at 1, bind at 1, ret at 1.
  rewrite Ef. unfold as_dict, bind, ret.
  eexists; split; [reflexivity |].
  intros []; reflexivity.
Qed.

(** A [config] (or a [config.fonts]) that is present but not a mapping makes
    resolution raise [AttributeError]. *)
Lemma load_config_raises_on_non_mapping (d : dict) (v : yaml) (st : state) :
  lookup d (u "config") = Some v ->
  (forall config, v <> YDict config) ->
  _load_config d st = (st, Raise AttributeError).
Proof.
  intros H Hv. unfold _load_config, get. rewrite H.
  destruct v; try reflexivity. now destruct (Hv entries).
Qed.

(* ===================================================================== *)
(** ** Validation *)
(* ===================================================================== *)

(** What the loader does with a missing file, a malformed file, a file whose
    reading raises another [ValueError], an empty document, a mapping
    without ['personal'], and a mapping whose ['personal'] is a mapping
    without ['name']: one diagnostic line and [sys.exit(1)]. *)
Lemma load_yaml_diagnostics (w : World) (path : str) (st : state) :
  (open_and_load w path = NoSuchFile ->
   _load_yaml w path st
   = (mkState (story st)
        (stdout st ++ [u "Error: YAML file '" ++ path ++ u "' not found"]),
      SysExit 1))
  /\ (forall err, open_and_load w path = Malformed err ->
      _load_yaml w path st
      = (mkState (story st) (stdout st ++ [u "Error parsing YAML file: " ++ err]),
         SysExit 1))
  /\ (forall msg, open_and_load w path = Rejected msg ->
      _load_yaml w path st
      = (mkState (story st) (stdout st ++ [u "Validation error: " ++ msg]),
         SysExit 1))
  /\ (forall data, open_and_load w path = Parsed data -> truthy data = false ->
      _load_yaml w path st
      = (mkState (story st)
           (stdout st ++ [u "Validation error: YAML file is empty"]),
         SysExit 1))
  /\ (forall d, open_and_load w path = Parsed (YDict d) -> d <> [] ->
      lookup d (u "personal") = None ->
      _load_yaml w path st
      = (mkState (story st)
           (stdout st ++ [u "Validation error: Missing required 'personal' section"]),
         SysExit 1))
  /\ (forall d personal, open_and_load w path = Parsed (YDict d) ->
      lookup d (u "personal") = Some (YDict personal) ->
      lookup personal (u "name") = None ->
      _load_yaml w path st
      = (mkState (story st)
           (stdout st
              ++ [u "Validation error: Missing required 'name' field in personal section"]),
         SysExit 1)).
Proof.
  unfold _load_yaml, try_except. repeat split.
  - now intros ->.
  - now intros err ->.
  - now intros msg ->.
  - intros data -> E. now rewrite E.
  - intros d -> Hd E. destruct d; [contradiction |].
    unfold py_in, has_key, bind, ret. cbn [truthy negb]. now rewrite E.
  - intros d personal -> Hp Hn. rewrite (lookup_some_truthy _ _ Hp).
    unfold py_in, py_getitem, has_key, bind, ret. cbn [negb].
    rewrite Hp. cbn [negb]. now rewrite Hn.
Qed.

(** A ['personal'] entry that is null or a number is not a container: the
    test ['name' not in personal] raises [TypeError], which no handler of
    the loader catches. *)
Lemma load_yaml_raises_on_scalar_personal
    (w : World) (path : str) (d : dict) (personal : yaml) (st : state) :
  open_and_load w path = Parsed (YDict d) ->
  lookup d (u "personal") = Some personal ->
  match personal with
  | YNull | YBool _ | YInt _ | YFloat _ | YDate _ _ _ => True
  | _ => False
  end ->
  _load_yaml w path st = (st, Raise TypeError).
Proof.
  intros Hopen Hp Hs. unfold _load_yaml, try_except. rewrite Hopen.
  rewrite (lookup_some_truthy _ _ Hp).
  unfold py_in, py_getitem, has_key, bind, ret. cbn [negb].
  rewrite Hp. cbn [negb]. destruct personal; try contradiction; reflexivity.
Qed.

Lemma fails_with_when_loading_exits (w : World) (yaml_file : str) (rest : list str)
    (line : str) :
  argv w = yaml_file :: rest ->
  (forall st, _load_yaml w (path_text yaml_file) st
              = (mkState (story st) (stdout st ++ [line]), SysExit 1)) ->
  fails_with w yaml_file line.
Proof.
  intros Hargv Hload.
  assert (E : run w = (mkState [] [u "Loading resume data from: " ++ yaml_file; line],
                       SysExit 1)).
  { unfold run, main. rewrite Hargv. unfold __init__, bind, print. now rewrite Hload. }
  split; [exact E | now rewrite E].
Qed.

(** The inputs the loader diagnoses.  A run whose input path does not exist
    prints the not-found diagnostic; one whose input is not YAML prints the
    parse-error diagnostic; one whose input raises another [ValueError]
    while it is read (bytes that are not UTF-8, an impossible date) prints
    that error as a validation error; one whose document parses but is
    empty, or is a mapping without the key ['personal'], or is a mapping
    whose ['personal'] value is a mapping without the key ['name'], prints a
    validation error.  In each case that line is the only one after the
    announcement, no block is built, and the process exits with status 1. *)
Theorem invalid_input_is_diagnosed (w : World) (yaml_file : str) (rest : list str) :
  argv w = yaml_file :: rest ->
  (open_and_load w (path_text yaml_file) = NoSuchFile ->
   fails_with w yaml_file
     (u "Error: YAML file '" ++ path_text yaml_file ++ u "' not found"))
  /\ (forall err,
      open_and_load w (path_text yaml_file) = Malformed err ->
      fails_with w yaml_file (u "Error parsing YAML file: " ++ err))
  /\ (forall msg,
      open_and_load w (path_text yaml_file) = Rejected msg ->
      fails_with w yaml_file (u "Validation error: " ++ msg))
  /\ (forall data,
      open_and_load w (path_text yaml_file) = Parsed data ->
      truthy data = false ->
      fails_with w yaml_file (u "Validation error: YAML file is empty"))
  /\ (forall d,
      open_and_load w (path_text yaml_file) = Parsed (YDict d) ->
      d <> [] ->
      lookup d (u "personal") = None ->
      fails_with w yaml_file
        (u "Validation error: Missing required 'personal' section"))
  /\ (forall d personal,
      open_and_load w (path_text yaml_file) = Parsed (YDict d) ->
      lookup d (u "personal") = Some (YDict personal) ->
      lookup personal (u "name") = None ->
      fails_with w yaml_file
        (u "Validation error: Missing required 'name' field in personal section")).
Proof.
  intros Hargv.
  refine (conj _ (conj _ (conj _ (conj _ (conj _ _))))).
  - intros H. apply (@fails_with_when_loading_exits w yaml_file rest _ Hargv).
    intros st. now apply (load_yaml_diagnostics w (path_text yaml_file) st).
  - intros err H. apply (@fails_with_when_loading_exits w yaml_file rest _ Hargv).
    intros st. now apply (load_yaml_diagnostics w (path_text yaml_file) st).
  - intros msg H. apply (@fails_with_when_loading_exits w yaml_file rest _ Hargv).
    intros st.
    now apply (proj1 (proj2 (proj2 (load_yaml_diagnostics w (path_text yaml_file) st)))
                 msg).
  - intros data H E. apply (@fails_with_when_loading_exits w yaml_file rest _ Hargv).
    intros st.
    now apply (proj1 (proj2 (proj2 (proj2
                 (load_yaml_diagnostics w (path_text yaml_file) st)))) data).
  - intros d H Hd E. apply (@fails_with_when_loading_exits w yaml_file rest _ Hargv).
    intros st.
    now apply (proj1 (proj2 (proj2 (proj2 (proj2
                 (load_yaml_diagnostics w (path_text yaml_file) st))))) d).
  - intros d personal H Hp Hn.
    apply (@fails_with_when_loading_exits w yaml_file rest _ Hargv). intros st.
    now apply (proj2 (proj2 (proj2 (proj2 (proj2
                 (load_yaml_diagnostics w (path_text yaml_file) st))))) d personal).
Qed.

(* ===================================================================== *)
(** ** Highlights *)
(* ===================================================================== *)

Lemma lstrip_blank (s : str) : blank s = true -> lstrip s = [].
Proof.
  induction s as [| c s IH]; simpl; [reflexivity |].
  intros H. apply andb_prop in H. destruct H as [-> H]. auto.
Qed.

Lemma lstrip_nil_blank (s : str) : lstrip s = [] -> blank s = true.
Proof.
  induction s as [| c s IH]; simpl; [reflexivity |].
  destruct (is_space c); [auto | discriminate].
Qed.

Lemma blank_rev (s : str) : blank (rev s) = blank s.
Proof.
  unfold blank. induction s as [| c s IH]; simpl; [reflexivity |].
  rewrite forallb_app, IH. simpl. rewrite andb_true_r. apply andb_comm.
Qed.

Lemma lstrip_head (s : str) :
  match lstrip s with
  | [] => True
  | c :: _ => is_space c = false
  end.
Proof.
  induction s as [| c s IH]; simpl; [exact I |].
  destruct (is_space c) eqn:E; [exact IH | exact E].
Qed.

(** [h.strip()] is empty exactly when [h] is empty or whitespace only. *)
Lemma strip_empty_iff_blank (h : str) : strip h = [] <-> blank h = true.
Proof.
  unfold strip. split.
  - intros H.
    assert (H1 : lstrip (rev (lstrip h)) = []).
    { destruct (lstrip (rev (lstrip h))) as [| c0 l0]; [reflexivity |].
      simpl in H. now destruct (rev l0). }
    apply lstrip_nil_blank in H1. rewrite blank_rev in H1.
    pose proof (lstrip_head h) as Hh.
    destruct (lstrip h) as [| c l] eqn:E; [now apply lstrip_nil_blank |].
    simpl in H1. now rewrite Hh in H1.
  - intros H. now rewrite (lstrip_blank _ H).
Qed.

(** On a list of strings, the loop of [_build_experience] appends one bullet
    for each highlight that is not blank, in the order of the list. *)
Lemma nonblank_keep (h : str) (st : state) :
  (if truthy (YStr h)
   then stripped <- py_strip (YStr h) ;;
        ret (match stripped with [] => false | _ => true end)
   else ret false) st
  = (st, Ok (negb (blank h))).
Proof.
  destruct h as [| c h']; [reflexivity |].
  unfold py_strip, bind, ret. cbn [truthy]. f_equal. f_equal.
  destruct (strip (c :: h')) eqn:Es.
  - apply strip_empty_iff_blank in Es. now rewrite Es.
  - destruct (blank (c :: h')) eqn:Eb; [| reflexivity].
    apply strip_empty_iff_blank in Eb. congruence.
Qed.

(** What [self.story.append(Paragraph(text, style))] does, by what the
    constructor makes of the text. *)
Lemma append_paragraph_accepted (s : str) (style : ParagraphStyle) (st : state) :
  paragraph_error s style = None ->
  append_paragraph (YStr s) style st
  = (mkState (story st ++ [Paragraph (YStr s) style]) (stdout st), Ok tt).
Proof. intros H. unfold append_paragraph, paragraph, bind. now rewrite H. Qed.

Lemma append_paragraph_rejected (s : str) (style : ParagraphStyle) (e : exn)
    (st : state) :
  paragraph_error s style = Some e ->
  append_paragraph (YStr s) style st = (st, Raise e).
Proof. intros H. unfold append_paragraph, paragraph, bind. now rewrite H. Qed.

Lemma append_paragraph_non_string (v : yaml) (style : ParagraphStyle) (st : state) :
  match v with YStr _ => False | _ => True end ->
  append_paragraph v style st = (st, Raise AttributeError).
Proof. destruct v; try contradiction; reflexivity. Qed.

(** On a list of strings, the loop of [_build_experience] appends one bullet
    for each highlight that is not blank, in the order of the list, as long
    as the layout library accepts the bullet lines. *)
Lemma nonblank_bullets_of_strings (self : ResumeGenerator) (hs : list str) (st : state) :
  Forall (fun h => paragraph_error (bullet_text h) (styles self ResumeBody) = None)
         (filter (fun h => negb (blank h)) hs) ->
  nonblank_bullets self (YList (map YStr hs)) st
  = (mkState
       (story st
          ++ map (fun h => Paragraph (YStr (bullet_text h)) (styles self ResumeBody))
                 (filter (fun h => negb (blank h)) hs))
       (stdout st),
     Ok tt).
Proof.
  unfold nonblank_bullets, py_iter. unfold bind at 1, ret at 1.
  revert st; induction hs as [| h hs IH]; intros st; cbn [map for_each filter].
  - intros _. unfold ret. destruct st; simpl. now rewrite app_nil_r.
  - unfold bind at 1 2. rewrite nonblank_keep.
    destruct (blank h); cbn [negb when].
    + intros Hok. unfold ret at 1. now apply IH.
    + intros Hok. inversion Hok as [| ? ? Hh Hrest]; subst.
      cbn [py_str]. rewrite (append_paragraph_accepted _ _ _ Hh).
      rewrite (IH _ Hrest). cbn [story stdout map].
      now rewrite <- app_assoc.
Qed.

(** The loop of the education, project and volunteer renderers has no such
    guard: every highlight gets its bullet, blank ones included. *)
Lemma bullets_of_strings (self : ResumeGenerator) (hs : list str) (st : state) :
  Forall (fun h => paragraph_error (bullet_text h) (styles self ResumeBody) = None) hs ->
  bullets self (YList (map YStr hs)) st
  = (mkState
       (story st
          ++ map (fun h => Paragraph (YStr (bullet_text h)) (styles self ResumeBody)) hs)
       (stdout st),
     Ok tt).
Proof.
  unfold bullets, py_iter. unfold bind at 1, ret at 1.
  revert st; induction hs as [| h hs IH]; intros st; cbn [map for_each].
  - intros _. unfold ret. destruct st; simpl. now rewrite app_nil_r.
  - intros Hok. inversion Hok as [| ? ? Hh Hrest]; subst.
    unfold bind at 1. cbn [py_str]. rewrite (append_paragraph_accepted _ _ _ Hh).
    rewrite (IH _ Hrest). cbn [story stdout map].
    now rewrite <- app_assoc.
Qed.


End Properties.

(* ===================================================================== *)
(** ** Further properties of the program *)
(* ===================================================================== *)

Lemma never_succeeds_raise {A} (e : exn) : never_succeeds (@raise A e).
Proof. intros st a; discriminate. Qed.

Lemma never_succeeds_bind_l {A B} (m : M A) (k : A -> M B) :
  never_succeeds m -> never_succeeds (bind m k).
Proof.
  intros H st b. unfold bind. specialize (H st).
  destruct (m st) as [s1 [a | e | c]]; simpl in *; [now destruct (H a) | |];
    discriminate.
Qed.

Lemma never_succeeds_bind_r {A B} (m : M A) (k : A -> M B) :
  (forall a, never_succeeds (k a)) -> never_succeeds (bind m k).
Proof.
  intros H st b. unfold bind.
  destruct (m st) as [s1 [a | e | c]]; simpl; [apply H | |]; discriminate.
Qed.

Lemma strings_of_strings (l : list str) : strings_of (map YStr l) = Some l.
Proof. induction l as [| s l IH]; simpl; [reflexivity | now rewrite IH]. Qed.

Lemma strings_of_non_string (parts : list yaml) (v : yaml) :
  In v parts -> is_string v = false -> strings_of parts = None.
Proof.
  induction parts as [| p parts IH]; simpl; [contradiction |].
  intros [-> | Hin] Hv.
  - destruct v; try reflexivity; discriminate.
  - destruct p; try reflexivity. now rewrite (IH Hin Hv).
Qed.

Lemma py_join_strings (sep : str) (l : list str) (st : state) :
  py_join sep (map YStr l) st = (st, Ok (join sep l)).
Proof. unfold py_join. now rewrite strings_of_strings. Qed.

Lemma py_join_non_string (sep : str) (parts : list yaml) (v : yaml) (st : state) :
  In v parts -> is_string v = false -> py_join sep parts st = (st, Raise TypeError).
Proof. intros Hin Hv. unfold py_join. now rewrite (strings_of_non_string _ _ Hin Hv). Qed.

(** Walk down a chain of binds to its last step, or to the call of
    [build_story]. *)
Ltac to_last_step :=
  repeat lazymatch goal with
  | |- never_succeeds (append_spacer _) => fail
  | |- never_succeeds (bind (build_story _) _) => fail
  | |- never_succeeds (bind _ _) => apply never_succeeds_bind_r; intros
  | |- never_succeeds (let _ := _ in _) => cbv zeta
  end.

Section MoreProperties.
Context {RT : Runtime}.

Lemma times_inch_non_numeric (v : yaml) (st : state) :
  numeric v = false -> times_inch v st = (st, Raise TypeError).
Proof. destruct v; simpl; try discriminate; reflexivity. Qed.

Lemma never_succeeds_append_spacer (v : yaml) :
  numeric v = false -> never_succeeds (append_spacer v).
Proof.
  intros H. unfold append_spacer. apply never_succeeds_bind_l.
  intros st a. now rewrite (times_inch_non_numeric _ st H).
Qed.

(** A [section_spacing] that is not a number (a quoted number, null, a list)
    is fatal for every document: the header ends with
    [Spacer(1, section_spacing*inch)], so the header, the assembly and
    [generate] never end normally. *)
Theorem non_numeric_section_spacing_is_fatal (self : ResumeGenerator) :
  numeric (section_spacing (config self)) = false ->
  never_succeeds (_build_header self)
  /\ never_succeeds (build_story self)
  /\ forall w, never_succeeds (generate w self).
Proof.
  intros H.
  assert (Hh : never_succeeds (_build_header self)).
  { unfold _build_header. to_last_step.
    now apply never_succeeds_append_spacer. }
  assert (Hs : never_succeeds (build_story self))
    by (unfold build_story; now apply never_succeeds_bind_l).
  refine (conj Hh (conj Hs _)).
  intros w. unfold generate. to_last_step.
  now apply never_succeeds_bind_l.
Qed.

(** The certification, award and publication renderers never read the
    configuration: their spacers are the fixed 0.04 and 0.03 inch, so no
    setting of [section_spacing], [item_spacing] or any other option changes
    what they do. *)
Theorem fixed_spacer_sections_ignore_config (self : ResumeGenerator) (c : Config) :
  _build_certifications (with_config c self) = _build_certifications self
  /\ _build_awards (with_config c self) = _build_awards self
  /\ _build_publications (with_config c self) = _build_publications self.
Proof. repeat split. Qed.

(** No style uses [fonts.name]: the option is read into the configuration,
    but the style sheet is the same whatever its value (only the bold and
    italic font names reach a style). *)
Theorem font_name_reaches_no_style (c : Config) (v : yaml) (key : style_key) :
  _create_styles (with_font_name v c) key = _create_styles c key.
Proof. destruct key; reflexivity. Qed.

Lemma replace_spaces_facts (s : str) :
  ~ In 32%N (replace 32%N 95%N s)
  /\ length (replace 32%N 95%N s) = length s.
Proof.
  unfold replace. split; [| apply length_map].
  intros H. apply in_map_iff in H. destruct H as [c [Hc _]].
  destruct (N.eqb c 32) eqn:E; [discriminate |].
  apply N.eqb_neq in E. congruence.
Qed.

(** [name.replace(' ', '_')] ends normally only for a string, leaves the
    state alone, and its result has the length of the name and no space. *)
Theorem file_stem_has_no_space (name : yaml) (st st' : state) (stem : str) :
  py_replace_spaces name st = (st', Ok stem) ->
  st' = st
  /\ ~ In 32%N stem
  /\ exists s, name = YStr s /\ length stem = length s.
Proof.
  destruct name; simpl; try discriminate.
  unfold ret. intros H; inversion H; subst.
  destruct (replace_spaces_facts s) as [H1 H2].
  repeat split; [exact H1 | exists s; split; [reflexivity | exact H2]].
Qed.

(* --- highlights written as one string --- *)

Lemma blank_singleton (c : N) : blank [c] = is_space c.
Proof. unfold blank. simpl. apply andb_true_r. Qed.

Lemma filter_singletons (s : str) :
  filter (fun h => negb (blank h)) (map (fun c => [c]) s)
  = map (fun c => [c]) (filter (fun c => negb (is_space c)) s).
Proof.
  induction s as [| c s IH]; [reflexivity |].
  cbn [map filter]. rewrite blank_singleton.
  destruct (is_space c); cbn [negb map]; now rewrite IH.
Qed.

(** An experience entry whose [highlights] is one string instead of a list
    is rendered one character per bullet: the loop iterates over the
    characters, and its guard drops only the whitespace ones.  (The lines
    handed to the layout library are the bullet, a space and one character;
    the statement is for the characters it accepts there.) *)
Theorem string_highlights_give_one_bullet_per_character
    (self : ResumeGenerator) (s : str) (st : state) :
  Forall (fun c => paragraph_error (bullet_text [c]) (styles self ResumeBody) = None)
         (filter (fun c => negb (is_space c)) s) ->
  nonblank_bullets self (YStr s) st
  = (mkState
       (story st
          ++ map (fun c => Paragraph (YStr (bullet_text [c])) (styles self ResumeBody))
                 (filter (fun c => negb (is_space c)) s))
       (stdout st),
     Ok tt).
Proof.
  intros Hok.
  pose proof (nonblank_bullets_of_strings self (map (fun c => [c]) s) st) as H.
  rewrite filter_singletons, !map_map in H. apply H.
  apply Forall_map. exact Hok.
Qed.

(* --- links --- *)

(** The links line lists the links whose value is truthy, in document
    order, each as ["<Title-cased label>: <value>"]; a link with an empty or
    null value is left out. *)
Theorem link_parts_of_string_keys (entries : list (str * yaml)) (st : state) :
  link_parts (string_keyed entries) st
  = (st,
     Ok (map (fun kv : str * yaml => str_title (fst kv) ++ u ": " ++ py_str (snd kv))
             (filter (fun kv : str * yaml => truthy (snd kv)) entries))).
Proof.
  induction entries as [| [k v] rest IH]; [reflexivity |].
  cbn [string_keyed map link_parts fst snd filter] in *.
  destruct (truthy v); [| exact IH].
  unfold bind at 1, ret at 1. unfold bind at 1.
  unfold string_keyed in IH. rewrite IH. reflexivity.
Qed.

(** A link whose label is not a string (a number, say) and whose value is
    truthy makes [key.title()] raise [AttributeError]. *)
Lemma link_parts_non_string_key (key value : yaml) (rest : dict) (st : state) :
  is_string key = false -> truthy value = true ->
  link_parts ((key, value) :: rest) st = (st, Raise AttributeError).
Proof.
  intros Hk Hv. simpl. rewrite Hv. destruct key; try discriminate; reflexivity.
Qed.

(* --- languages --- *)






(* --- skills --- *)

Lemma add_section_header_accepted (self : ResumeGenerator) (title : str) (st : state) :
  paragraph_error title (styles self SectionHeader) = None ->
  _add_section_header self title st
  = (mkState (story st ++ section_header_blocks self title) (stdout st), Ok tt).
Proof.
  intros H. unfold _add_section_header, bind.
  rewrite (append_paragraph_accepted _ _ _ H).
  unfold append, section_header_blocks. cbn [story stdout].
  now rewrite <- app_assoc.
Qed.

Lemma add_section_header_rejected (self : ResumeGenerator) (title : str) (e : exn)
    (st : state) :
  paragraph_error title (styles self SectionHeader) = Some e ->
  _add_section_header self title st = (st, Raise e).
Proof.
  intros H. unfold _add_section_header, bind.
  now rewrite (append_paragraph_rejected _ _ _ H).
Qed.

(** A flat list of skills is one comma-joined line between the section
    header and the section spacer; if the layout library refuses that line,
    the renderer raises its exception and leaves the header and the rule
    behind. *)
Theorem flat_skills_are_one_line
    (self : ResumeGenerator) (skills : list str) (f : float) (st : state) :
  lookup (data self) (u "skills") = Some (YList (map YStr skills)) ->
  skills <> [] ->
  section_spacing (config self) = YFloat f ->
  paragraph_error (u "SKILLS") (styles self SectionHeader) = None ->
  _build_skills self st
  = match paragraph_error (join (u ", ") skills) (styles self SkillItem) with
    | None =>
        (mkState
           (story st
              ++ section_header_blocks self (u "SKILLS")
              ++ [Paragraph (YStr (join (u ", ") skills)) (styles self SkillItem);
                  Spacer 1 (f * inch)%float])
           (stdout st),
         Ok tt)
    | Some e =>
        (mkState (story st ++ section_header_blocks self (u "SKILLS")) (stdout st),
         Raise e)
    end.
Proof.
  intros Hl Hne Hf Hh. unfold _build_skills. rewrite Hl.
  destruct skills as [| s0 skills]; [contradiction |]. cbn [map truthy negb].
  unfold append_spacer. rewrite Hf.
  unfold bind at 1. rewrite (add_section_header_accepted _ _ _ Hh).
  change (YStr s0 :: map YStr skills) with (map YStr (s0 :: skills)).
  unfold bind at 1 2. rewrite py_join_strings.
  destruct (paragraph_error (join (u ", ") (s0 :: skills)) (styles self SkillItem))
    as [e |] eqn:E.
  - now rewrite (append_paragraph_rejected _ _ _ E).
  - rewrite (append_paragraph_accepted _ _ _ E).
    unfold bind, append, times_inch, ret. cbn [story stdout].
    now rewrite <- !app_assoc.
Qed.

(** A skill that is not a string (a number, a nested mapping) makes the
    renderer raise [TypeError] after the section header and the rule have
    been appended (unless the layout library refuses the header itself, and
    then nothing is appended). *)
Theorem non_string_skill_raises
    (self : ResumeGenerator) (skills : list yaml) (v : yaml) (st : state) :
  lookup (data self) (u "skills") = Some (YList skills) ->
  In v skills -> is_string v = false ->
  _build_skills self st
  = match paragraph_error (u "SKILLS") (styles self SectionHeader) with
    | None =>
        (mkState (story st ++ section_header_blocks self (u "SKILLS")) (stdout st),
         Raise TypeError)
    | Some e => (st, Raise e)
    end.
Proof.
  intros Hl Hin Hv. unfold _build_skills. rewrite Hl.
  destruct skills as [| s0 skills]; [contradiction |]. cbn [truthy negb].
  unfold bind at 1.
  destruct (paragraph_error (u "SKILLS") (styles self SectionHeader)) as [e |] eqn:E.
  - now rewrite (add_section_header_rejected _ _ _ E).
  - rewrite (add_section_header_accepted _ _ _ E).
    unfold bind. now rewrite (py_join_non_string _ _ _ _ Hin Hv).
Qed.

Lemma truthy_categorized (categories : list (yaml * list str)) :
  categories <> [] -> truthy (YDict (categorized categories)) = true.
Proof. destruct categories; [contradiction | reflexivity]. Qed.

(** Categorized skills are one line per category, in document order, each
    the bold category label followed by its comma-joined skills; a category
    whose list is empty gets no line.  (The statement is for lines the
    layout library accepts.) *)
Theorem categorized_skills_are_one_line_per_category
    (self : ResumeGenerator) (categories : list (yaml * list str)) (f : float)
    (st : state) :
  lookup (data self) (u "skills") = Some (YDict (categorized categories)) ->
  categories <> [] ->
  section_spacing (config self) = YFloat f ->
  paragraph_error (u "SKILLS") (styles self SectionHeader) = None ->
  Forall (fun cs : yaml * list str =>
            paragraph_error
              (u "<b>" ++ py_str (fst cs) ++ u ":</b> " ++ join (u ", ") (snd cs))
              (styles self SkillItem)
            = None)
         (filter (fun cs : yaml * list str =>
                    match snd cs with [] => false | _ => true end)
                 categories) ->
  _build_skills self st
  = (mkState
       (story st
          ++ section_header_blocks self (u "SKILLS")
          ++ map (fun cs : yaml * list str =>
                    Paragraph
                      (YStr (u "<b>" ++ py_str (fst cs) ++ u ":</b> "
                               ++ join (u ", ") (snd cs)))
                      (styles self SkillItem))
                 (filter (fun cs : yaml * list str =>
                            match snd cs with [] => false | _ => true end)
                         categories)
          ++ [Spacer 1 (f * inch)%float])
       (stdout st),
     Ok tt).
Proof.
  intros Hl Hne Hf Hh Hok. unfold _build_skills. rewrite Hl.
  rewrite (truthy_categorized Hne). cbn [negb].
  unfold append_spacer. rewrite Hf.
  unfold bind at 1. rewrite (add_section_header_accepted _ _ _ Hh).
  unfold bind at 1.
  set (s0 := mkState _ _).
  match goal with
  | |- context [for_each (categorized categories) ?body s0] =>
      assert (L : forall s,
                 for_each (categorized categories) body s
                 = (mkState
                      (story s
                         ++ map (fun cs : yaml * list str =>
                                   Paragraph
                                     (YStr (u "<b>" ++ py_str (fst cs) ++ u ":</b> "
                                              ++ join (u ", ") (snd cs)))
                                     (styles self SkillItem))
                                (filter (fun cs : yaml * list str =>
                                           match snd cs with [] => false | _ => true end)
                                        categories))
                      (stdout s),
                    Ok tt))
  end.
  { clear - Hok. induction categories as [| [c l] rest IH]; intros s.
    - unfold ret; destruct s; simpl. now rewrite app_nil_r.
    - cbn [categorized map for_each fst snd filter] in *.
      unfold bind at 1. destruct l as [| x l].
      + cbn [map truthy when]. unfold ret at 1. now apply IH.
      + inversion Hok as [| ? ? Hline Hrest]; subst. cbn [fst snd] in Hline.
        cbn [map truthy when]. unfold bind at 1.
        change (YStr x :: map YStr l) with (map YStr (x :: l)).
        rewrite py_join_strings. rewrite <- !app_assoc.
        rewrite (append_paragraph_accepted _ _ _ Hline). rewrite (IH Hrest).
        cbn [story stdout map fst snd]. now rewrite <- !app_assoc. }
  rewrite L. unfold bind, times_inch, ret, append. subst s0.
  cbn [story stdout]. now rewrite <- !app_assoc.
Qed.

(* --- summary --- *)

(** A summary given as a list of lines is rendered as the string obtained by
    joining the lines with single spaces. *)
Theorem summary_lines_are_joined_with_spaces
    (self self' : ResumeGenerator) (lines : list str) (st : state) :
  config self' = config self ->
  styles self' = styles self ->
  lookup (data self) (u "summary") = Some (YList (map YStr lines)) ->
  lookup (data self') (u "summary") = Some (YStr (join (u " ") lines)) ->
  _build_summary self st = _build_summary self' st.
Proof.
  intros Hc Hs Hl Hl'. unfold _build_summary. rewrite Hl, Hl'.
  unfold bind at 1. rewrite py_join_strings.
  unfold _add_section_header. now rewrite Hc, Hs.
Qed.

(** A summary that is neither a string nor a list (a mapping, a number) is
    skipped without an error, as an absent one is. *)
Theorem other_summary_shapes_are_skipped
    (self : ResumeGenerator) (summary : yaml) (st : state) :
  lookup (data self) (u "summary") = Some summary ->
  match summary with YStr _ | YList _ => False | _ => True end ->
  _build_summary self st = (st, Ok tt).
Proof.
  intros Hl Hs. unfold _build_summary. rewrite Hl.
  destruct summary; try contradiction; reflexivity.
Qed.

(* --- sections that section_order does not list --- *)

Lemma builder_named_key (builders : list (str * (ResumeGenerator -> M unit)))
    (name : str) (build : ResumeGenerator -> M unit) :
  builder_named builders name = Some build -> In (name, build) builders.
Proof.
  induction builders as [| [k b] rest IH]; simpl; [discriminate |].
  destruct (str_eqb name k) eqn:E.
  - intros H; inversion H; subst. apply str_eqb_eq in E. subst. now left.
  - intros H. right. now apply IH.
Qed.

Section SameKey.
Variables self self' : ResumeGenerator.
Hypothesis same_config : config self' = config self.
Hypothesis same_styles : styles self' = styles self.

(** Each renderer reads the document under its own key only. *)
Lemma builder_reads_its_key (name : str) (build : ResumeGenerator -> M unit) :
  In (name, build) section_builders ->
  lookup (data self') name = lookup (data self) name ->
  build self' = build self.
Proof.
  unfold section_builders; simpl; intros H Hk.
  repeat (destruct H as [H | H]; [inversion H; subst; clear H |]);
    [ unfold _build_summary | unfold _build_experience | unfold _build_education
    | unfold _build_skills | unfold _build_projects | unfold _build_certifications
    | unfold _build_awards | unfold _build_publications | unfold _build_languages
    | unfold _build_volunteer | contradiction ];
    unfold _add_section_header, append_row, bullets, nonblank_bullets;
    rewrite ?Hk, ?same_config, ?same_styles; reflexivity.
Qed.

Lemma header_reads_personal :
  lookup (data self') (u "personal") = lookup (data self) (u "personal") ->
  _build_header self' = _build_header self.
Proof.
  intros Hk. unfold _build_header, get.
  rewrite ?Hk, ?same_config, ?same_styles. reflexivity.
Qed.

Lemma footer_reads_no_data : build_footer self' = build_footer self.
Proof. unfold build_footer. rewrite ?same_config, ?same_styles. reflexivity. Qed.

End SameKey.

(** A section that [section_order] does not list is never rendered: what the
    document holds under its key (present, absent, ill-shaped) changes
    neither the story nor the output, and no warning mentions it. *)
Theorem unlisted_section_is_ignored
    (self self' : ResumeGenerator) (order : list yaml) (k : str) :
  section_order (config self) = YList order ->
  ~ In (YStr k) order ->
  k <> u "personal" ->
  (forall k', k' <> k -> lookup (data self') k' = lookup (data self) k') ->
  config self' = config self ->
  styles self' = styles self ->
  forall st, build_story self' st = build_story self st.
Proof.
  intros Horder Hnot Hp Hsame Hc Hs st.
  assert (Hloop : forall names, (forall x, In x names -> In x order) ->
            forall s, for_each names (build_section self') s
                      = for_each names (build_section self) s).
  { induction names as [| x rest IH]; intros Hsub s; [reflexivity |].
    cbn [for_each]. unfold bind.
    assert (E : build_section self' x s = build_section self x s).
    { destruct (selected x) as [build |] eqn:Hsel.
      - rewrite !(build_section_selected _ _ _ Hsel).
        destruct x; unfold selected in Hsel; try discriminate.
        apply builder_named_key in Hsel.
        assert (Eb : build self' = build self).
        { eapply builder_reads_its_key; [exact Hc | exact Hs | exact Hsel |].
          apply Hsame. intros ->. apply Hnot, Hsub. now left. }
        now rewrite Eb.
      - destruct (hashable x) eqn:Hh.
        + now rewrite !(build_section_unknown _ _ _ Hh Hsel).
        + now rewrite !(build_section_unhashable _ _ _ Hh). }
    rewrite E. destruct (build_section self x s) as [s1 [[] | e | c]]; auto.
    apply IH. intros y Hy. apply Hsub. now right. }
  unfold build_story, bind.
  rewrite (@header_reads_personal self self' Hc Hs (Hsame _ (not_eq_sym Hp))).
  rewrite Hc, Horder.
  destruct (_build_header self st) as [s1 [[] | e | c]]; auto.
  cbn [py_iter ret]. rewrite (Hloop order (fun x H => H)).
  destruct (for_each order (build_section self) s1) as [s2 [[] | e | c]]; auto.
  now rewrite (@footer_reads_no_data self self' Hc Hs).
Qed.

(* --- the shape of the assembled story --- *)

Hint Resolve blocks_only_as_dict blocks_only_py_iter blocks_only_py_join
  blocks_only_py_strip blocks_only_py_iadd blocks_only_times_inch
  blocks_only_paragraph blocks_only_append_paragraph blocks_only_append_row
  blocks_only_append_spacer blocks_only_append_fixed_spacer
  blocks_only_add_section_header blocks_only_bullets
  blocks_only_nonblank_bullets blocks_only_link_parts : blocks.

Lemma blocks_of_footer (self : ResumeGenerator) :
  succeeds (build_footer self) ->
  blocks_of (build_footer self) = footer_blocks self.
Proof.
  intros [[] H]. unfold blocks_of, build_footer, footer_blocks in *.
  destruct (truthy (footer (config self))); [| reflexivity].
  cbn [when] in *. unfold bind, append_fixed_spacer, append in *. cbn [fst snd] in *.
  match goal with
  | |- context [append_paragraph (YStr ?t) ?style ?s] =>
      destruct (paragraph_error t style) as [e |] eqn:E;
        [ rewrite (append_paragraph_rejected _ _ s E) in H; discriminate H
        | rewrite (append_paragraph_accepted _ _ s E); reflexivity ]
  end.
Qed.

Lemma header_starts_with_the_name (self : ResumeGenerator) :
  succeeds (_build_header self) ->
  exists personal header_rest,
    get (data self) (u "personal") (YDict []) = YDict personal
    /\ blocks_of (_build_header self)
       = Paragraph (get personal (u "name") (YStr [])) (styles self Name)
           :: header_rest.
Proof.
  intros [[] H]. unfold blocks_of. unfold _build_header in *.
  destruct (get (data self) (u "personal") (YDict [])) as [| | | | | | | personal |];
    try discriminate H.
  exists personal. unfold as_dict, bind at 1, ret at 1 in H.
  unfold as_dict, bind at 1, ret at 1. cbv zeta in *.
  unfold bind at 1 in H. unfold bind at 1.
  destruct (get personal (u "name") (YStr [])) as [| | | | name | | | |];
    try discriminate H.
  destruct (paragraph_error name (styles self Name)) as [e |] eqn:E;
    [rewrite (append_paragraph_rejected _ _ _ E) in H; discriminate H |].
  rewrite (append_paragraph_accepted _ _ _ E).
  match goal with
  | |- context [story (fst (?m (mkState ?blocks ?lines)))] =>
      assert (UK : uniform m) by (apply uniform_of_blocks_only; blocks_auto);
      rewrite (UK (mkState blocks lines))
  end.
  eexists. split; reflexivity.
Qed.

(** Whatever [section_order] holds, a story that is assembled without error
    starts with the name paragraph of the header and ends with the footer
    blocks (the spacer and the attribution line when [footer] is on, nothing
    when it is off); the sections lie between. *)
Theorem header_comes_first_and_footer_last (self : ResumeGenerator) :
  succeeds (build_story self) ->
  exists personal header_rest sections,
    get (data self) (u "personal") (YDict []) = YDict personal
    /\ forall st,
         story (fst (build_story self st))
         = story st
             ++ (Paragraph (get personal (u "name") (YStr [])) (styles self Name)
                   :: header_rest)
             ++ sections
             ++ footer_blocks self.
Proof.
  intros Hs.
  pose proof (uniform_of_blocks_only (blocks_only_build_footer self)) as Ufooter.
  set (rest := (order <- py_iter (section_order (config self)) ;;
                for_each order (build_section self) ;;
                build_footer self)).
  assert (Urest : uniform rest).
  { apply uniform_bind; [apply uniform_of_blocks_only, blocks_only_py_iter |].
    intros order. apply uniform_bind; [| auto].
    apply uniform_for_each; intros; apply uniform_build_section. }
  change (build_story self) with (_build_header self ;; rest) in *.
  apply (succeeds_seq _ Urest) in Hs. destruct Hs as [Hh Hr].
  destruct (seq_fresh Urest Hh) as (B & _ & _).
  destruct (header_starts_with_the_name Hh) as (personal & header_rest & Ep & Eh).
  assert (Er : exists sections, blocks_of rest = sections ++ footer_blocks self).
  { apply succeeds_unit in Hr. unfold blocks_of, rest, bind in *.
    destruct (py_iter (section_order (config self)) initial)
      as [s0 [order | e | c]] eqn:Ei; try discriminate Hr.
    assert (s0 = initial).
    { unfold py_iter in Ei. destruct (section_order (config self));
        inversion Ei; reflexivity. }
    subst s0.
    assert (Hlf : succeeds (for_each order (build_section self) ;; build_footer self))
      by (apply succeeds_unit; unfold bind; exact Hr).
    apply (succeeds_seq _ Ufooter) in Hlf. destruct Hlf as [Hl Hf].
    destruct (seq_fresh Ufooter Hl) as (B2 & _ & _).
    unfold blocks_of, bind in B2. rewrite B2.
    exists (story (fst (for_each order (build_section self) initial))).
    unfold blocks_of in *. now rewrite <- (blocks_of_footer self Hf). }
  destruct Er as [sections Er].
  exists personal, header_rest, sections. split; [exact Ep |].
  intros st.
  assert (U : uniform (_build_header self ;; rest))
    by (apply uniform_bind;
        [apply uniform_of_blocks_only, blocks_only_build_header | auto]).
  rewrite (appends_of_uniform U st), B, Eh, Er. reflexivity.
Qed.

(* --- contact values that are not strings --- *)

Lemma contact_line_raises (contact_parts : list yaml) (v : yaml)
    (line : str -> M unit) (k : M unit) (st : state) :
  In v contact_parts -> is_string v = false ->
  (when (match contact_parts with [] => false | _ => true end)
     (contact_text <- py_join dot_sep contact_parts ;; line contact_text) ;;
   k) st
  = (st, Raise TypeError).
Proof.
  intros Hin Hv. destruct contact_parts as [| p parts]; [contradiction |].
  cbn [when]. unfold bind. now rewrite (py_join_non_string _ _ _ _ Hin Hv).
Qed.

(** An e-mail address or a phone number that is not a string (a phone number
    written without quotes is a YAML integer) makes the header raise
    [TypeError] when the contact line is joined; for a name that is a string
    the layout library accepts, only the name paragraph has been appended by
    then. *)
Theorem non_string_contact_raises
    (self : ResumeGenerator) (personal : dict) (name : str) (v : yaml) (st : state) :
  lookup (data self) (u "personal") = Some (YDict personal) ->
  get personal (u "name") (YStr []) = YStr name ->
  paragraph_error name (styles self Name) = None ->
  lookup personal (u "email") = Some v \/ lookup personal (u "phone") = Some v ->
  is_string v = false ->
  _build_header self st
  = (mkState (story st ++ [Paragraph (YStr name) (styles self Name)]) (stdout st),
     Raise TypeError).
Proof.
  intros Hp Hn Hok Hv Hs. unfold _build_header. unfold get at 1. rewrite Hp.
  unfold as_dict, bind at 1, ret at 1. cbv zeta. rewrite Hn.
  unfold bind at 1. rewrite (append_paragraph_accepted _ _ _ Hok).
  set (s1 := mkState _ _).
  set (parts := match lookup personal (u "phone") with
                | Some phone => _
                | None => _
                end).
  assert (Hin : In v parts).
  { subst parts. destruct Hv as [He | Hph].
    - rewrite He. destruct (lookup personal (u "phone")); simpl; auto.
    - rewrite Hph. apply in_or_app. right. now left. }
  unfold bind at 1.
  destruct (lookup personal (u "location")) as [location |].
  - destruct location;
      try (unfold ret at 1; cbv beta iota;
           apply contact_line_raises with (v := v);
           [apply in_or_app; now left | exact Hs]).
    unfold bind at 1, py_join at 1.
    match goal with
    | |- context [strings_of ?l] => destruct (strings_of l)
    end.
    + unfold ret at 1 2. cbv beta iota.
      apply contact_line_raises with (v := v);
        [apply in_or_app; now left | exact Hs].
    + reflexivity.
  - unfold ret at 1. cbv beta iota. now apply contact_line_raises with (v := v).
Qed.

(* --- the hand-over to the render delegate --- *)

(** What [generate] does once the story is assembled: for a string name, a
    float margin and an assembly that succeeds, the render delegate is
    called once, with the path [output_dir / "<name with _ for spaces>_resume.pdf"],
    the margin in points and the old story followed by the new blocks.  If
    the delegate succeeds, the story is empty afterwards (the delegate has
    taken every block off the list), the success line is printed and the
    path is returned; if it fails with message [e], the story is what the
    delegate left of it, the line ["Error generating PDF: e"] is printed and
    the process exits with status 1. *)
Theorem generate_hands_the_story_over
    (w : World) (self : ResumeGenerator) (personal : dict) (name : str)
    (f : float) (st : state) :
  get (data self) (u "personal") (YDict []) = YDict personal ->
  get personal (u "name") (YStr (u "resume")) = YStr name ->
  margin (config self) = YFloat f ->
  succeeds (build_story self) ->
  let output_file :=
    path_join (output_dir self) (replace 32%N 95%N name ++ u "_resume.pdf") in
  let blocks := story st ++ blocks_of (build_story self) in
  let lines := stdout st ++ lines_of (build_story self) in
  generate w self st
  = match doc_build w output_file (f * inch)%float blocks with
    | Built =>
        (mkState []
           (lines ++ [check_mark :: u " Resume generated successfully: "
                        ++ output_file]),
         Ok output_file)
    | BuildFailed remaining e =>
        (mkState remaining (lines ++ [u "Error generating PDF: " ++ e]), SysExit 1)
    end.
Proof.
  intros Hp Hn Hm Hs output_file blocks lines.
  unfold generate. rewrite Hp. unfold as_dict, bind at 1, ret at 1.
  rewrite Hn. unfold py_replace_spaces, bind at 1, ret at 1.
  rewrite Hm. unfold times_inch, bind at 1, ret at 1.
  unfold bind at 1.
  rewrite (run_of_uniform st (uniform_build_story self)).
  apply succeeds_unit in Hs. rewrite Hs.
  unfold build_pdf. cbn [story stdout]. fold output_file blocks lines.
  destruct (doc_build w output_file (f * inch)%float blocks); reflexivity.
Qed.

(* --- documents that are not mappings --- *)

(** A non-empty top-level sequence or string is never accepted.  If it does
    not contain ['personal'] (as an item, or as a substring) the loader
    reports the missing ['personal'] section; if it does, indexing it with
    ['personal'] raises [TypeError], which the loader does not catch. *)
Theorem top_level_sequence_or_string_is_rejected
    (w : World) (path : str) (document : yaml) (st : state) :
  open_and_load w path = Parsed document ->
  truthy document = true ->
  (forall l, document = YList l ->
     _load_yaml w path st
     = if existsb (key_is (u "personal")) l
       then (st, Raise TypeError)
       else (mkState (story st)
               (stdout st
                  ++ [u "Validation error: Missing required 'personal' section"]),
             SysExit 1))
  /\ (forall s, document = YStr s ->
      _load_yaml w path st
      = if str_contains (u "personal") s
        then (st, Raise TypeError)
        else (mkState (story st)
                (stdout st
                   ++ [u "Validation error: Missing required 'personal' section"]),
              SysExit 1)).
Proof.
  intros Hopen Ht. unfold _load_yaml, try_except. rewrite Hopen, Ht. cbn [negb].
  split.
  - intros l ->. unfold py_in, bind, ret.
    destruct (existsb (key_is (u "personal")) l); reflexivity.
  - intros s ->. unfold py_in, bind, ret.
    destruct (str_contains (u "personal") s); reflexivity.
Qed.

(** A ['personal'] value that is a string passes the loader as soon as it
    contains the letters ["name"] (the membership test is a substring test
    then), but [generate] and the header both fail on it with
    [AttributeError] before any block is built. *)
Theorem string_personal_passes_the_loader
    (w : World) (path : str) (d : dict) (s : str) (st : state) :
  open_and_load w path = Parsed (YDict d) ->
  lookup d (u "personal") = Some (YStr s) ->
  str_contains (u "name") s = true ->
  _load_yaml w path st = (st, Ok d)
  /\ forall self, data self = d ->
       _build_header self st = (st, Raise AttributeError)
       /\ forall w', generate w' self st = (st, Raise AttributeError).
Proof.
  intros Hopen Hp Hn. split.
  - unfold _load_yaml, try_except. rewrite Hopen.
    rewrite (lookup_some_truthy _ _ Hp).
    unfold py_in, py_getitem, has_key, bind, ret. cbn [negb].
    rewrite Hp. cbn [negb]. rewrite Hn. reflexivity.
  - intros self Hd. split.
    + unfold _build_header, get. rewrite Hd, Hp. reflexivity.
    + intros w'. unfold generate, get. rewrite Hd, Hp. reflexivity.
Qed.

(* --- the guard of the experience renderer --- *)

(** The highlight loop of the experience renderer keeps the highlights that
    are not blank (empty, or whitespace only), in their order, one bullet
    each, and drops the blank ones; a blank highlight is never handed to the
    layout library.  (The statement is for highlights whose bullet lines the
    library accepts.) *)
Theorem experience_keeps_the_nonblank_highlights
    (self : ResumeGenerator) (highlights : list str) (st : state) :
  Forall (fun h => paragraph_error (bullet_text h) (styles self ResumeBody) = None)
         (filter (fun h => negb (blank h)) highlights) ->
  nonblank_bullets self (YList (map YStr highlights)) st
  = (mkState
       (story st
          ++ map (fun h => Paragraph (YStr (bullet_text h)) (styles self ResumeBody))
                 (filter (fun h => negb (blank h)) highlights))
       (stdout st),
     Ok tt).
Proof. apply nonblank_bullets_of_strings. Qed.

(* --- names the program cannot render --- *)

(** A name that is not a string (null, a boolean, a number, a date, a list,
    a mapping, a set) is fatal although the loader accepts it: the header
    hands it to [Paragraph], which raises [AttributeError], and [generate]
    fails even earlier, on [name.replace(' ', '_')] ([TypeError] for a date,
    whose [replace] takes other arguments; [AttributeError] otherwise).
    Nothing is appended and nothing is printed. *)
Theorem non_string_name_is_fatal
    (self : ResumeGenerator) (personal : dict) (v : yaml) (st : state) :
  lookup (data self) (u "personal") = Some (YDict personal) ->
  lookup personal (u "name") = Some v ->
  match v with
  | YNull | YBool _ | YInt _ | YFloat _ | YDate _ _ _
  | YList _ | YDict _ | YSet _ => True
  | YStr _ => False
  end ->
  _build_header self st = (st, Raise AttributeError)
  /\ forall w,
       generate w self st
       = (st, Raise match v with
                    | YDate _ _ _ => TypeError
                    | _ => AttributeError
                    end).
Proof.
  intros Hp Hn Hv. split.
  - unfold _build_header, get. rewrite Hp. unfold as_dict, bind at 1, ret at 1.
    rewrite Hn. cbv zeta. unfold bind at 1.
    now rewrite append_paragraph_non_string.
  - intros w. unfold generate, get. rewrite Hp. unfold as_dict, bind at 1, ret at 1.
    rewrite Hn. destruct v; try reflexivity; contradiction.
Qed.

(** The name is handed to [Paragraph] as it is written: a name the layout
    library refuses (one that is not well-formed markup, such as an opening
    tag that is never closed) ends the header, the assembly and [generate]
    with the exception of the library, before any block is appended. *)
Theorem refused_name_is_fatal
    (self : ResumeGenerator) (personal : dict) (name : str) (e : exn) (f : float)
    (st : state) :
  lookup (data self) (u "personal") = Some (YDict personal) ->
  lookup personal (u "name") = Some (YStr name) ->
  paragraph_error name (styles self Name) = Some e ->
  margin (config self) = YFloat f ->
  _build_header self st = (st, Raise e)
  /\ build_story self st = (st, Raise e)
  /\ forall w, generate w self st = (st, Raise e).
Proof.
  intros Hp Hn He Hm.
  assert (Hh : _build_header self st = (st, Raise e)).
  { unfold _build_header, get. rewrite Hp. unfold as_dict, bind at 1, ret at 1.
    rewrite Hn. cbv zeta. unfold bind at 1.
    now rewrite (append_paragraph_rejected _ _ _ He). }
  assert (Hs : build_story self st = (st, Raise e))
    by (unfold build_story, bind at 1; now rewrite Hh).
  refine (conj Hh (conj Hs _)).
  intros w. unfold generate, get. rewrite Hp. unfold as_dict, bind at 1, ret at 1.
  rewrite Hn. unfold py_replace_spaces, bind at 1, ret at 1.
  rewrite Hm. unfold times_inch, bind at 1, ret at 1.
  unfold bind at 1. now rewrite Hs.
Qed.

End MoreProperties.

(* ===================================================================== *)
(** ** The statements on concrete documents *)
(* ===================================================================== *)

#[local] Existing Instance ascii_runtime.

(** The examples of the specification, read off the rules of C1. *)
Lemma format_date_range_examples :
  _format_date_range (text "2020") YNull (YBool false) = u "2020"
  /\ _format_date_range (text "2020") (text "2022") (YBool false) = u "2020 - 2022"
  /\ _format_date_range (text "2020") YNull (YBool true) = u "2020 - Present"
  /\ _format_date_range YNull (text "2022") (YBool true) = []
  /\ _format_date_range (text "2020") (text "PreSent") (YBool false)
     = u "2020 - Present"
  /\ _format_date_range (YInt 2020) (YDate 2022 3 1) YNull = u "2020 - 2022-03-01".
Proof.
  refine (conj _ (conj _ (conj _ (conj _ (conj _ _))))).
  - apply (proj1 (proj2 (proj2 (proj2
      (format_date_range_rules (text "2020") YNull (YBool false))))));
      reflexivity.
  - apply (proj1 (proj2 (proj2
      (format_date_range_rules (text "2020") (text "2022") (YBool false)))));
      [reflexivity | reflexivity | vm_compute; discriminate | reflexivity].
  - apply (proj1 (proj2
      (format_date_range_rules (text "2020") YNull (YBool true))));
      [reflexivity | left; reflexivity].
  - apply (proj1 (format_date_range_rules YNull (text "2022") (YBool true)));
      reflexivity.
  - apply (proj1 (proj2
      (format_date_range_rules (text "2020") (text "PreSent") (YBool false))));
      [reflexivity | right; split; reflexivity].
  - apply (proj1 (proj2 (proj2
      (format_date_range_rules (YInt 2020) (YDate 2022 3 1) YNull))));
      [reflexivity | reflexivity | vm_compute; discriminate | reflexivity].
Defined.

(** C3, at a document whose experience, education, project and volunteer
    entries each carry the highlights ["   "] and ["Shipped"].  Only the
    experience renderer drops the blank highlight; the three others emit a
    bullet for it: these are the bullet lines of the story the run hands to
    the render delegate. *)
Theorem blank_highlights_are_rendered_outside_experience :
  bullet_lines (handed_over (world_of (Parsed (YDict blank_highlights))))
  = [bullet_text (u "Shipped");
     bullet_text (u "   "); bullet_text (u "Shipped");
     bullet_text (u "   "); bullet_text (u "Shipped");
     bullet_text (u "   "); bullet_text (u "Shipped")].
Proof. vm_compute. reflexivity. Qed.

(** C4 on [skills: []] (present and empty) and on a document without
    [languages] (absent). *)
Lemma empty_and_absent_sections_render_nothing :
  _build_skills (generator_of empty_skills default_config) initial = (initial, Ok tt)
  /\ _build_languages (generator_of empty_skills default_config) initial
     = (initial, Ok tt).
Proof.
  split.
  - apply (@absent_or_empty_section_renders_nothing _
             (generator_of empty_skills default_config) (u "skills") _build_skills).
    + simpl. tauto.
    + right. exists (YList []). split; [reflexivity | left; reflexivity].
  - apply (@absent_or_empty_section_renders_nothing _
             (generator_of empty_skills default_config) (u "languages")
             _build_languages).
    + simpl. tauto.
    + left. reflexivity.
Defined.

(** C5 on a document that lists experience before education and asks for
    [education, hobbies, experience]: Education is rendered first, the
    unknown name costs one warning, and the assembly succeeds. *)
Lemma education_is_rendered_before_experience :
  section_titles
    (story (fst (build_story
                   (generator_of reordered (with_section_order (YList reordered_order)))
                   initial)))
  = [u "EDUCATION"; u "PROFESSIONAL EXPERIENCE"]
  /\ build_story (generator_of reordered_keys
                    (with_section_order (YList reordered_order))) initial
     = build_story (generator_of reordered
                      (with_section_order (YList reordered_order))) initial
  /\ stdout (fst (build_story
                    (generator_of reordered (with_section_order (YList reordered_order)))
                    initial))
     = [u "Warning: Unknown section 'hobbies' in section_order config"]
  /\ snd (build_story
            (generator_of reordered (with_section_order (YList reordered_order)))
            initial)
     = Ok tt.
Proof.
  destruct (@section_order_decides_rendering_order _
              (generator_of reordered (with_section_order (YList reordered_order)))
              reordered_order eq_refl)
    as (Hsucc & Hrun & Hkeys).
  { repeat constructor. }
  assert (H : succeeds (build_story
                (generator_of reordered (with_section_order (YList reordered_order))))).
  { apply Hsucc. split; [exists tt; reflexivity |].
    change (selected_builders reordered_order)
      with [_build_education; _build_experience].
    repeat constructor; exists tt; reflexivity. }
  refine (conj _ (conj _ (conj _ _))).
  - rewrite (Hrun H initial). vm_compute. reflexivity.
  - apply Hkeys; try reflexivity.
    + exact (Permutation_rev reordered).
    + vm_compute. repeat constructor; simpl; intuition discriminate.
  - rewrite (Hrun H initial). vm_compute. reflexivity.
  - rewrite (Hrun H initial). reflexivity.
Defined.

(** The configuration [__init__] resolves for [reordered], and the whole run
    on it. *)
Example reordered_run :
  _load_config reordered initial
  = (initial, Ok (with_section_order (YList reordered_order)))
  /\ section_titles (handed_over (world_of (Parsed (YDict reordered))))
     = [u "EDUCATION"; u "PROFESSIONAL EXPERIENCE"]
  /\ exit_status (snd (run (world_of (Parsed (YDict reordered))))) = 0.
Proof. vm_compute. repeat split. Qed.

(** C7, at the document [personal: {name:}].  It passes the loader, so it is
    valid, and it holds nothing but [personal.name]; yet [generate] calls
    [.replace] on [None]: the run dies with [AttributeError] before any block
    is built, nothing is handed to the render delegate, and the exit status
    is 1. *)
Theorem null_name_document_is_not_rendered :
  _load_yaml (world_of (Parsed (YDict (name_only YNull)))) (u "resume.yaml") initial
  = (initial, Ok (name_only YNull))
  /\ run (world_of (Parsed (YDict (name_only YNull))))
     = (mkState []
          [u "Loading resume data from: resume.yaml"; u "Generating PDF resume..."],
        Raise AttributeError)
  /\ handed_over (world_of (Parsed (YDict (name_only YNull)))) = []
  /\ exit_status (snd (run (world_of (Parsed (YDict (name_only YNull)))))) = 1.
Proof. repeat split. Qed.



(** C9 on the experience renderer of a concrete document. *)
Lemma experience_renderer_appends :
  exists blocks, forall st,
    story (fst (_build_experience (generator_of blank_highlights default_config) st))
    = story st ++ blocks.
Proof.
  apply (@story_is_append_only _ (generator_of blank_highlights default_config)
           (_build_experience (generator_of blank_highlights default_config))).
  left. simpl. tauto.
Defined.

(** C10 on a name that is null and on a name that is the empty string. *)
Lemma null_and_empty_names_are_accepted :
  _load_yaml (world_of (Parsed (YDict (name_only YNull)))) (u "resume.yaml") initial
  = (initial, Ok (name_only YNull))
  /\ _load_yaml (world_of (Parsed (YDict (name_only (YStr [])))))
       (u "resume.yaml") initial
     = (initial, Ok (name_only (YStr []))).
Proof.
  split.
  - apply (@loader_checks_only_that_name_is_present
             (world_of (Parsed (YDict (name_only YNull)))) (u "resume.yaml")
             (name_only YNull) [(key "name", YNull)] YNull initial); reflexivity.
  - apply (@loader_checks_only_that_name_is_present
             (world_of (Parsed (YDict (name_only (YStr []))))) (u "resume.yaml")
             (name_only (YStr [])) [(key "name", YStr [])] (YStr []) initial);
      reflexivity.
Defined.

(** A missing file, a file that is not YAML, a file with an impossible date,
    an empty document, a document without [personal] and a [personal]
    mapping without [name]. *)
Lemma invalid_inputs_are_diagnosed :
  fails_with (world_of NoSuchFile) (u "resume.yaml")
    (u "Error: YAML file 'resume.yaml' not found")
  /\ fails_with (world_of (Malformed (u "mapping values are not allowed here")))
       (u "resume.yaml")
       (u "Error parsing YAML file: mapping values are not allowed here")
  /\ fails_with (world_of (Rejected (u "month must be in 1..12")))
       (u "resume.yaml")
       (u "Validation error: month must be in 1..12")
  /\ fails_with (world_of (Parsed YNull)) (u "resume.yaml")
       (u "Validation error: YAML file is empty")
  /\ fails_with (world_of (Parsed (YDict no_personal))) (u "resume.yaml")
       (u "Validation error: Missing required 'personal' section")
  /\ fails_with (world_of (Parsed (YDict no_name))) (u "resume.yaml")
       (u "Validation error: Missing required 'name' field in personal section").
Proof.
  refine (conj _ (conj _ (conj _ (conj _ (conj _ _))))).
  - exact (proj1 (@invalid_input_is_diagnosed _ (world_of NoSuchFile)
                    (u "resume.yaml") [] eq_refl) eq_refl).
  - exact (proj1 (proj2 (@invalid_input_is_diagnosed _
                    (world_of (Malformed (u "mapping values are not allowed here")))
                    (u "resume.yaml") [] eq_refl)) _ eq_refl).
  - exact (proj1 (proj2 (proj2 (@invalid_input_is_diagnosed _
                    (world_of (Rejected (u "month must be in 1..12")))
                    (u "resume.yaml") [] eq_refl))) _ eq_refl).
  - exact (proj1 (proj2 (proj2 (proj2 (@invalid_input_is_diagnosed _
                    (world_of (Parsed YNull)) (u "resume.yaml") [] eq_refl))))
             YNull eq_refl eq_refl).
  - refine (proj1 (proj2 (proj2 (proj2 (proj2 (@invalid_input_is_diagnosed _
                    (world_of (Parsed (YDict no_personal))) (u "resume.yaml") []
                    eq_refl))))) no_personal eq_refl _ eq_refl).
    discriminate.
  - exact (proj2 (proj2 (proj2 (proj2 (proj2 (@invalid_input_is_diagnosed _
                    (world_of (Parsed (YDict no_name))) (u "resume.yaml") []
                    eq_refl))))) no_name [(key "email", text "ada@example.org")]
             eq_refl eq_refl eq_refl).
Defined.

(** C2, at the document [personal:] (the key with nothing under it).  It
    parses, is not empty and has no ['personal'] mapping, yet no validation
    error is printed.  The test ['name' not in personal] is applied to [None]
    and raises [TypeError], which no handler of the loader catches: the
    process dies with that exception after the announcement. *)
Theorem null_personal_escapes_validation :
  run (world_of (Parsed (YDict null_personal)))
  = (mkState [] [u "Loading resume data from: resume.yaml"], Raise TypeError)
  /\ ~ fails_with (world_of (Parsed (YDict null_personal))) (u "resume.yaml")
         (u "Validation error: Missing required 'personal' section")
  /\ ~ fails_with (world_of (Parsed (YDict null_personal))) (u "resume.yaml")
         (u "Validation error: Missing required 'name' field in personal section").
Proof.
  refine (conj eq_refl (conj _ _)); intros [H _]; vm_compute in H; discriminate H.
Qed.

(** A document that sets [section_order] and nothing else: that option
    takes the supplied list, every other option its default. *)
Lemma section_order_alone_is_overridden :
  exists c,
    _load_config reordered initial = (initial, Ok c)
    /\ section_order c = YList reordered_order
    /\ margin c = YFloat 0.6
    /\ font_name c = text "Helvetica"
    /\ name_size c = YInt 20
    /\ footer c = YBool false.
Proof.
  destruct (@config_resolves_each_option reordered
              [(key "section_order", YList reordered_order)] [] initial)
    as [c [Hc Hall]].
  - right. reflexivity.
  - left. split; reflexivity.
  - exists c. split; [exact Hc |].
    refine (conj (Hall OSectionOrder) (conj (Hall OMargin) (conj (Hall OFontName)
             (conj (Hall ONameSize) (Hall OFooter))))).
Defined.

(** C6, at a document with [config:] and nothing under it.  No option is
    specified there, yet resolution fails: [self.data.get('config', {})]
    finds the key and returns [None] instead of the default [{}],
    [config.get] raises [AttributeError], and the run dies with it before any
    block is built. *)
Theorem null_config_breaks_resolution :
  _load_config null_config initial = (initial, Raise AttributeError)
  /\ run (world_of (Parsed (YDict null_config)))
     = (mkState [] [u "Loading resume data from: resume.yaml"],
        Raise AttributeError).
Proof. split; reflexivity. Qed.

(* ===================================================================== *)
(** ** The further properties on concrete documents *)
(* ===================================================================== *)

(** [section_spacing: "0.1"], a quoted number. *)
Lemma quoted_section_spacing_is_fatal :
  never_succeeds
    (_build_header (generator_of (name_only (text "Ada Lovelace"))
                      (with_section_spacing (text "0.1"))))
  /\ never_succeeds
       (build_story (generator_of (name_only (text "Ada Lovelace"))
                       (with_section_spacing (text "0.1"))))
  /\ forall w,
       never_succeeds
         (generate w (generator_of (name_only (text "Ada Lovelace"))
                        (with_section_spacing (text "0.1")))).
Proof.
  apply (@non_numeric_section_spacing_is_fatal _
           (generator_of (name_only (text "Ada Lovelace"))
              (with_section_spacing (text "0.1")))).
  reflexivity.
Defined.

Lemma ada_lovelace_file_stem :
  initial = initial
  /\ ~ In 32%N (u "Ada_Lovelace")
  /\ exists s, text "Ada Lovelace" = YStr s /\ length (u "Ada_Lovelace") = length s.
Proof.
  apply (@file_stem_has_no_space (text "Ada Lovelace") initial initial
           (u "Ada_Lovelace")).
  reflexivity.
Defined.


Lemma python_and_go_are_one_line :
  _build_skills (generator_of flat_skills default_config) initial
  = (mkState
       (section_header_blocks (generator_of flat_skills default_config) (u "SKILLS")
          ++ [Paragraph (text "Python, Go") (_create_styles default_config SkillItem);
              Spacer 1 (0.08 * inch)%float])
       [],
     Ok tt).
Proof.
  refine (@flat_skills_are_one_line _ (generator_of flat_skills default_config)
            [u "Python"; u "Go"] 0.08%float initial eq_refl _ eq_refl eq_refl).
  discriminate.
Defined.

Lemma numbered_skill_raises :
  _build_skills (generator_of numbered_skills default_config) initial
  = (mkState
       (section_header_blocks (generator_of numbered_skills default_config)
          (u "SKILLS"))
       [],
     Raise TypeError).
Proof.
  refine (@non_string_skill_raises _ (generator_of numbered_skills default_config)
            [text "Python"; YInt 3] (YInt 3) initial eq_refl _ eq_refl).
  right; left; reflexivity.
Defined.

Lemma languages_and_tools_categories :
  _build_skills (generator_of categorized_skills default_config) initial
  = (mkState
       (section_header_blocks (generator_of categorized_skills default_config)
          (u "SKILLS")
          ++ [Paragraph (text "<b>Languages:</b> Python, Go")
                (_create_styles default_config SkillItem);
              Spacer 1 (0.08 * inch)%float])
       [],
     Ok tt).
Proof.
  apply (@categorized_skills_are_one_line_per_category _
           (generator_of categorized_skills default_config)
           [(key "Languages", [u "Python"; u "Go"]); (key "Tools", [])]
           0.08%float initial);
    [reflexivity | discriminate | reflexivity | reflexivity
    | repeat constructor].
Defined.

Lemma two_summary_lines_are_one_paragraph :
  _build_summary (generator_of summary_lines default_config) initial
  = _build_summary (generator_of summary_string default_config) initial.
Proof.
  apply (@summary_lines_are_joined_with_spaces _
           (generator_of summary_lines default_config)
           (generator_of summary_string default_config)
           [u "Analyst."; u "Wrote the first program."] initial);
    reflexivity.
Defined.

Lemma summary_mapping_is_skipped :
  _build_summary (generator_of summary_mapping default_config) initial
  = (initial, Ok tt).
Proof.
  apply (@other_summary_shapes_are_skipped _
           (generator_of summary_mapping default_config)
           (YDict [(key "text", text "Analyst.")]) initial);
    [reflexivity | exact I].
Defined.

(** With [section_order: [summary]] the skills of a document are never
    looked at: a well-formed list and an ill-formed one give the same run. *)
Lemma skills_outside_section_order_are_ignored :
  build_story (generator_of numbered_skills
                 (with_section_order (YList [text "summary"]))) initial
  = build_story (generator_of flat_skills
                   (with_section_order (YList [text "summary"]))) initial.
Proof.
  refine (@unlisted_section_is_ignored _
            (generator_of flat_skills (with_section_order (YList [text "summary"])))
            (generator_of numbered_skills (with_section_order (YList [text "summary"])))
            [text "summary"] (u "skills") eq_refl _ _ _ eq_refl eq_refl initial).
  - simpl. intros [H | []]. discriminate H.
  - discriminate.
  - intros k' Hk.
    cbn [lookup key_is key data generator_of numbered_skills flat_skills].
    destruct (str_eqb (u "personal") k'); [reflexivity |].
    destruct (str_eqb (u "skills") k') eqn:E; [| reflexivity].
    apply str_eqb_eq in E. congruence.
Defined.

(** A document with experience and education (the footer is off there, so
    the footer blocks are empty). *)
Lemma name_first_attribution_last :
  exists personal header_rest sections,
    get (data (generator_of reordered default_config)) (u "personal") (YDict [])
    = YDict personal
    /\ forall st,
         story (fst (build_story (generator_of reordered default_config) st))
         = story st
             ++ (Paragraph (get personal (u "name") (YStr []))
                   (styles (generator_of reordered default_config) Name)
                   :: header_rest)
             ++ sections
             ++ footer_blocks (generator_of reordered default_config).
Proof.
  apply (@header_comes_first_and_footer_last _
           (generator_of reordered default_config)).
  exists tt. vm_compute. reflexivity.
Defined.

Lemma numeric_phone_raises :
  _build_header (generator_of numeric_phone default_config) initial
  = (mkState [Paragraph (text "Ada Lovelace") (_create_styles default_config Name)] [],
     Raise TypeError).
Proof.
  apply (@non_string_contact_raises _ (generator_of numeric_phone default_config)
           [(key "name", text "Ada Lovelace"); (key "phone", YInt 5551234)]
           (u "Ada Lovelace") (YInt 5551234) initial);
    [reflexivity | reflexivity | reflexivity | right; reflexivity | reflexivity].
Defined.

(** The same document handed to a render delegate that succeeds and to one
    that fails after the first block. *)
Lemma hand_over_to_both_delegates :
  generate (world_of (Parsed (YDict flat_skills)))
    (generator_of flat_skills default_config) initial
  = (mkState []
       [check_mark :: u " Resume generated successfully: output/Ada_Lovelace_resume.pdf"],
     Ok (u "output/Ada_Lovelace_resume.pdf"))
  /\ generate (world_with_failing_delegate (Parsed (YDict flat_skills)))
       (generator_of flat_skills default_config) initial
     = (mkState
          (tl (blocks_of (build_story (generator_of flat_skills default_config))))
          [u "Error generating PDF: disk full"],
        SysExit 1).
Proof.
  assert (H : succeeds (build_story (generator_of flat_skills default_config)))
    by (exists tt; vm_compute; reflexivity).
  split.
  - exact (@generate_hands_the_story_over _
             (world_of (Parsed (YDict flat_skills)))
             (generator_of flat_skills default_config)
             [(key "name", text "Ada Lovelace")] (u "Ada Lovelace") 0.6%float initial
             eq_refl eq_refl eq_refl H).
  - exact (@generate_hands_the_story_over _
             (world_with_failing_delegate (Parsed (YDict flat_skills)))
             (generator_of flat_skills default_config)
             [(key "name", text "Ada Lovelace")] (u "Ada Lovelace") 0.6%float initial
             eq_refl eq_refl eq_refl H).
Defined.

Lemma sequence_document_is_rejected :
  _load_yaml (world_of (Parsed sequence_document)) (u "resume.yaml") initial
  = (mkState [] [u "Validation error: Missing required 'personal' section"],
     SysExit 1)
  /\ _load_yaml (world_of (Parsed (YList [text "personal"]))) (u "resume.yaml") initial
     = (initial, Raise TypeError).
Proof.
  split.
  - exact (proj1 (@top_level_sequence_or_string_is_rejected
                    (world_of (Parsed sequence_document)) (u "resume.yaml")
                    sequence_document initial eq_refl eq_refl)
             [text "name"; text "Ada Lovelace"] eq_refl).
  - exact (proj1 (@top_level_sequence_or_string_is_rejected
                    (world_of (Parsed (YList [text "personal"]))) (u "resume.yaml")
                    (YList [text "personal"]) initial eq_refl eq_refl)
             [text "personal"] eq_refl).
Defined.

Lemma sentence_personal_passes_and_fails_later :
  _load_yaml (world_of (Parsed (YDict sentence_personal))) (u "resume.yaml") initial
  = (initial, Ok sentence_personal)
  /\ forall self, data self = sentence_personal ->
       _build_header self initial = (initial, Raise AttributeError)
       /\ forall w', generate w' self initial = (initial, Raise AttributeError).
Proof.
  apply (@string_personal_passes_the_loader _
           (world_of (Parsed (YDict sentence_personal))) (u "resume.yaml")
           sentence_personal (u "my name is Ada Lovelace") initial);
    reflexivity.
Defined.

Lemma null_personal_raises_type_error :
  _load_yaml (world_of (Parsed (YDict null_personal))) (u "resume.yaml") initial
  = (initial, Raise TypeError).
Proof.
  apply (@load_yaml_raises_on_scalar_personal
           (world_of (Parsed (YDict null_personal))) (u "resume.yaml")
           null_personal YNull initial);
    [reflexivity | reflexivity | exact I].
Defined.

Lemma list_config_raises_attribute_error :
  _load_config list_config initial = (initial, Raise AttributeError).
Proof.
  apply (@load_config_raises_on_non_mapping list_config (YList [text "footer"])
           initial);
    [reflexivity | discriminate].
Defined.

(** The document [personal: {name: Ada Lovelace}], rendered. *)
Lemma name_only_run :
  handed_over (world_of (Parsed (YDict (name_only (text "Ada Lovelace")))))
  = [Paragraph (text "Ada Lovelace") (_create_styles default_config Name);
     Spacer 1 (0.08 * inch)%float]
  /\ snd (run (world_of (Parsed (YDict (name_only (text "Ada Lovelace")))))) = Ok tt
  /\ exit_status
       (snd (run (world_of (Parsed (YDict (name_only (text "Ada Lovelace")))))))
     = 0.
Proof.
  destruct (@name_only_document_renders_header_only ascii_runtime
              (world_of (Parsed (YDict (name_only (text "Ada Lovelace")))))
              (u "resume.yaml") [] (u "Ada Lovelace") eq_refl eq_refl
              (@eq_refl (option exn) None))
    as [Hstory Hrun].
  split; [exact Hstory | apply Hrun; reflexivity].
Defined.

(** [highlights: a b] written as one string: a bullet for [a] and one for
    [b]. *)
Lemma a_bullet_for_each_letter :
  nonblank_bullets (generator_of blank_highlights default_config) (text "a b") initial
  = (mkState
       [Paragraph (YStr (bullet_text (u "a"))) (_create_styles default_config ResumeBody);
        Paragraph (YStr (bullet_text (u "b"))) (_create_styles default_config ResumeBody)]
       [],
     Ok tt).
Proof.
  apply (@string_highlights_give_one_bullet_per_character _
           (generator_of blank_highlights default_config) (u "a b") initial).
  repeat constructor.
Defined.

(** The highlights ["   "] and ["Shipped"] in the experience section. *)
Lemma blank_highlight_is_dropped_from_experience :
  nonblank_bullets (generator_of blank_highlights default_config)
    (YList [text "   "; text "Shipped"]) initial
  = (mkState
       [Paragraph (YStr (bullet_text (u "Shipped")))
          (_create_styles default_config ResumeBody)]
       [],
     Ok tt).
Proof.
  apply (@experience_keeps_the_nonblank_highlights _
           (generator_of blank_highlights default_config)
           [u "   "; u "Shipped"] initial).
  repeat constructor.
Defined.

(** [name: 1815], a number. *)
Lemma numeric_name_is_fatal :
  _build_header (generator_of (name_only (YInt 1815)) default_config) initial
  = (initial, Raise AttributeError)
  /\ forall w,
       generate w (generator_of (name_only (YInt 1815)) default_config) initial
       = (initial, Raise AttributeError).
Proof.
  apply (@non_string_name_is_fatal _
           (generator_of (name_only (YInt 1815)) default_config)
           [(key "name", YInt 1815)] (YInt 1815) initial);
    [reflexivity | reflexivity | exact I].
Defined.

(** [name: Ada<b], an opening tag that is never closed. *)
Lemma unclosed_tag_in_name_is_fatal :
  exists e,
    _build_header (generator_of (name_only (text "Ada<b")) default_config) initial
    = (initial, Raise e)
    /\ build_story (generator_of (name_only (text "Ada<b")) default_config) initial
       = (initial, Raise e)
    /\ forall w,
         generate w (generator_of (name_only (text "Ada<b")) default_config) initial
         = (initial, Raise e).
Proof.
  eexists.
  apply (@refused_name_is_fatal _
           (generator_of (name_only (text "Ada<b")) default_config)
           [(key "name", text "Ada<b")] (u "Ada<b") _ 0.6%float initial);
    reflexivity.
Defined.
